(** * Email analyzer: the classification route

    A shallow embedding of the request handler of the email analyzer
    (the [POST] route with its helpers [classifyEmail] and
    [generateDemoEmails]) and the properties of its classification
    engine.

    Modelling conventions.

    - A JavaScript string is a sequence of UTF-16 code units.  The
      development covers the strings whose code units are below 256
      (ISO-8859-1), represented as [string]; [toLowerCase], the
      white-space class and the case-insensitive comparison of the
      regular expression are the restrictions of the JavaScript ones
      to that range.  The pictographs of the demo subjects lie outside
      it and appear as their UTF-8 bytes, none of which is a letter or
      a white-space character.
    - JavaScript numbers that count something are [nat]; the parsed
      batch size, which may be negative, is [Z], and [NaN] is [None].
      [parseInt] keeps every digit where JavaScript rounds integers
      beyond 2^53; such values are far from the bounds they are
      compared with, so the number of emails is the same.
    - An optional property ([unsubscribeLink?], a [maxEmails] missing
      from the request) is an [option].
    - The regular expression literal is a syntax tree run by a
      backtracking matcher in continuation-passing style, following
      the pattern semantics of ECMAScript. *)

From Stdlib Require Import Bool Arith List Lia ZArith NArith Ascii String.
From Stdlib Require Import DecimalString DecimalNat.
Import ListNotations.

Local Open Scope string_scope.

(** ** Strings *)

Module Js.

Definition codeUnit (c : ascii) : N := N_of_ascii c.

Definition inRange (lo hi : N) (c : ascii) : bool :=
  ((lo <=? codeUnit c) && (codeUnit c <=? hi))%N.

(** [String.prototype.toLowerCase], one code unit: A-Z, and the
    accented capitals U+00C0-U+00DE except the multiplication sign. *)
Definition toLowerChar (c : ascii) : ascii :=
  if inRange 65 90 c || (inRange 192 222 c && negb (codeUnit c =? 215)%N)
  then ascii_of_N (codeUnit c + 32)
  else c.

Fixpoint toLowerCase (s : string) : string :=
  match s with
  | EmptyString => EmptyString
  | String c s' => String (toLowerChar c) (toLowerCase s')
  end.

(** The class [\s] (white space and line terminators). *)
Definition isWhiteSpace (c : ascii) : bool :=
  inRange 9 13 c || (codeUnit c =? 32)%N || (codeUnit c =? 160)%N.

(** [s.includes(kw)]. *)
Fixpoint includes (s kw : string) : bool :=
  prefix kw s ||
  match s with
  | EmptyString => false
  | String _ s' => includes s' kw
  end.

(** Truthiness of a value that is a string or [undefined]. *)
Definition truthy (v : option string) : bool :=
  match v with
  | Some s => negb (s =? "")
  | None => false
  end.

(** The template-literal rendering of a non-negative integer. *)
Definition numberToString (n : nat) : string :=
  NilZero.string_of_uint (Nat.to_uint n).

(** [ToString] of a value that is a string or [undefined]. *)
Definition toStringValue (v : option string) : string :=
  match v with
  | Some s => s
  | None => "undefined"
  end.

(** *** [parseInt] with no radix argument *)

Definition digitValue (c : ascii) : option N :=
  if inRange 48 57 c then Some (codeUnit c - 48)%N
  else if inRange 97 122 c then Some (codeUnit c - 87)%N
  else if inRange 65 90 c then Some (codeUnit c - 55)%N
  else None.

Fixpoint trimStart (s : string) : string :=
  match s with
  | EmptyString => EmptyString
  | String c s' => if isWhiteSpace c then trimStart s' else s
  end.

(** The value of the longest prefix of radix-[R] digits; [None] when
    that prefix is empty. *)
Fixpoint digitsValue (R : N) (s : string) (acc : option N) : option N :=
  match s with
  | EmptyString => acc
  | String c s' =>
      match digitValue c with
      | Some d =>
          if (d <? R)%N
          then digitsValue R s' (Some (match acc with
                                       | Some a => a * R + d
                                       | None => d
                                       end)%N)
          else acc
      | None => acc
      end
  end.

Definition stripSign (s : string) : bool * string :=
  match s with
  | String "-" s' => (true, s')
  | String "+" s' => (false, s')
  | _ => (false, s)
  end.

Definition stripHexPrefix (s : string) : N * string :=
  match s with
  | String "0" (String "x" s') => (16%N, s')
  | String "0" (String "X" s') => (16%N, s')
  | _ => (10%N, s)
  end.

Definition parseInt (input : string) : option Z :=
  let (negative, s) := stripSign (trimStart input) in
  let (R, s) := stripHexPrefix s in
  match digitsValue R s None with
  | None => None
  | Some n => Some (if negative then - Z.of_N n else Z.of_N n)%Z
  end.

(** [x || d] for a number [x]: [NaN] and zero are falsy. *)
Definition orElse (x : option Z) (d : Z) : Z :=
  match x with
  | None => d
  | Some 0%Z => d
  | Some n => n
  end.

End Js.

(** ** Regular expressions *)

Module RegExp.

Inductive regex : Type :=
| Eps
| Lit (ch : ascii)
| NotSpace
| Opt (r : regex)
| Star (r : regex)
| Seq (r1 r2 : regex).

Definition Plus (r : regex) : regex := Seq r (Star r).

Fixpoint word (s : string) : regex :=
  match s with
  | EmptyString => Eps
  | String c s' => Seq (Lit c) (word s')
  end.

(** [Canonicalize] without the unicode flag: the upper-case form when
    it is one code unit.  Within the modelled range the y with
    diaeresis and the micro sign have an upper-case form outside the
    range that nothing else shares, and the sharp s has none of one
    unit, so they are left alone. *)
Definition canonicalize (ignoreCase : bool) (c : ascii) : ascii :=
  if ignoreCase
  then if Js.inRange 97 122 c || (Js.inRange 224 254 c && negb (Js.codeUnit c =? 247)%N)
       then ascii_of_N (Js.codeUnit c - 32)
       else c
  else c.

(** A matcher state is the input not yet consumed; a continuation
    returns, on success, what is left after the whole match. *)
Definition Continuation : Type := string -> option string.
Definition Matcher : Type := string -> Continuation -> option string.

(** [RepeatMatcher] for a greedy quantifier with minimum 0 and at
    most [max] iterations: an iteration that consumes nothing is
    rejected.  For [*] the bound is the length of the input, which
    no run of consuming iterations exceeds. *)
Fixpoint repeatMatcher (m : Matcher) (max : nat) (x : string) (c : Continuation)
  : option string :=
  match max with
  | O => c x
  | S max' =>
      match m x (fun y => if (length y <? length x)%nat
                          then repeatMatcher m max' y c
                          else None) with
      | Some z => Some z
      | None => c x
      end
  end.

Fixpoint compile (ignoreCase : bool) (r : regex) (x : string) (c : Continuation)
  {struct r} : option string :=
  match r with
  | Eps => c x
  | Lit ch =>
      match x with
      | String a y =>
          if Ascii.eqb (canonicalize ignoreCase a) (canonicalize ignoreCase ch)
          then c y else None
      | EmptyString => None
      end
  | NotSpace =>
      match x with
      | String a y => if Js.isWhiteSpace a then None else c y
      | EmptyString => None
      end
  | Opt r' => repeatMatcher (compile ignoreCase r') 1 x c
  | Star r' => repeatMatcher (compile ignoreCase r') (length x) x c
  | Seq r1 r2 => compile ignoreCase r1 x (fun y => compile ignoreCase r2 y c)
  end.

(** [s.match(re)[0]] for a regular expression without the global
    flag: the match at the first index where the matcher succeeds. *)
Fixpoint exec (ignoreCase : bool) (r : regex) (s : string) : option string :=
  match compile ignoreCase r s Some with
  | Some rest => Some (substring 0 (length s - length rest) s)
  | None =>
      match s with
      | EmptyString => None
      | String _ s' => exec ignoreCase r s'
      end
  end.

(** The strings a pattern denotes. *)
Inductive Lang (ignoreCase : bool) : regex -> string -> Prop :=
| LEps : Lang ignoreCase Eps ""
| LLit ch a :
    canonicalize ignoreCase a = canonicalize ignoreCase ch ->
    Lang ignoreCase (Lit ch) (String a "")
| LNotSpace a :
    Js.isWhiteSpace a = false -> Lang ignoreCase NotSpace (String a "")
| LOptNone r : Lang ignoreCase (Opt r) ""
| LOptSome r t : Lang ignoreCase r t -> Lang ignoreCase (Opt r) t
| LStarNil r : Lang ignoreCase (Star r) ""
| LStarCons r t1 t2 :
    Lang ignoreCase r t1 -> Lang ignoreCase (Star r) t2 ->
    Lang ignoreCase (Star r) (t1 ++ t2)
| LSeq r1 r2 t1 t2 :
    Lang ignoreCase r1 t1 -> Lang ignoreCase r2 t2 ->
    Lang ignoreCase (Seq r1 r2) (t1 ++ t2).

(** What a matcher must do to be the matcher of [r]: succeed only by
    consuming a word of [r], and succeed whenever some word of [r]
    leads the continuation to succeed. *)
Definition SoundFor (ignoreCase : bool) (r : regex) (m : Matcher) : Prop :=
  forall x c z, m x c = Some z ->
    exists t y, x = t ++ y /\ Lang ignoreCase r t /\ c y = Some z.

Definition CompleteFor (ignoreCase : bool) (r : regex) (m : Matcher) : Prop :=
  forall t y c, Lang ignoreCase r t -> c y <> None -> m (t ++ y) c <> None.

End RegExp.

(** ** The route *)

Module EmailConfig.
Record t : Type := mk {
  provider : string;
  email : string;
  password : string;
  imapHost : string;
  imapPort : string;
  maxEmails : option string;
  autoUnsubscribe : bool
}.
End EmailConfig.

Module EmailData.
Record t : Type := mk {
  id : string;
  from : string;
  subject : string;
  date : string;
  body : string;
  headers : list (string * string)
}.
End EmailData.

Inductive Classification : Type := marketing | important.

Definition isMarketingLabel (c : Classification) : bool :=
  match c with marketing => true | important => false end.

Definition isImportantLabel (c : Classification) : bool :=
  match c with marketing => false | important => true end.

Module EmailResult.
Record t : Type := mk {
  id : string;
  from : string;
  subject : string;
  date : string;
  classification : Classification;
  action : string;
  reason : string;
  unsubscribeLink : option string
}.

(** [result.action = a]. *)
Definition setAction (a : string) (r : t) : t :=
  mk (id r) (from r) (subject r) (date r) (classification r) a (reason r)
     (unsubscribeLink r).
End EmailResult.

Import RegExp.

Definition marketingKeywords : list string :=
  [ "unsubscribe"; "promotional"; "sale"; "discount"; "offer"; "deal";
    "newsletter"; "marketing"; "advertisement"; "promo"; "limited time";
    "buy now"; "shop now"; "exclusive"; "free shipping"; "save now";
    "special offer"; "subscribe"; "notification"; "update"; "digest" ].

Definition importantKeywords : list string :=
  [ "invoice"; "receipt"; "payment"; "account"; "security"; "alert";
    "verification"; "confirm"; "reset password"; "bank"; "statement";
    "bill"; "transaction"; "urgent"; "action required"; "contract";
    "meeting"; "appointment"; "deadline"; "legal"; "tax" ].

(** The pattern [https?:\/\/[^\s]+unsubscribe[^\s]*]. *)
Definition unsubscribePattern : regex :=
  Seq (word "http")
 (Seq (Opt (Lit "s"))
 (Seq (word "://")
 (Seq (Plus NotSpace)
 (Seq (word "unsubscribe")
      (Star NotSpace))))).

(** One [forEach] over a keyword table, threading the counter. *)
Definition countKeywords (keywords : list string) (subject body : string) (score : nat)
  : nat :=
  fold_left
    (fun score keyword =>
       if Js.includes subject keyword || Js.includes body keyword
       then S score else score)
    keywords score.

(** The state of [classifyEmail] when it reaches its [// Classify]
    comment. *)
Record Scores : Type := mkScores {
  marketingScore : nat;
  importantScore : nat;
  unsubscribeLink : option string
}.

Definition scoreEmail (email : EmailData.t) : Scores :=
  let subject := Js.toLowerCase (EmailData.subject email) in
  let from := Js.toLowerCase (EmailData.from email) in
  let body := Js.toLowerCase (EmailData.body email) in
  let marketingScore := 0 in
  let importantScore := 0 in
  let marketingScore := countKeywords marketingKeywords subject body marketingScore in
  let importantScore := countKeywords importantKeywords subject body importantScore in
  let marketingScore :=
    if Js.includes from "noreply" || Js.includes from "no-reply"
       || Js.includes from "marketing"
    then marketingScore + 2 else marketingScore in
  let importantScore :=
    if Js.includes from "admin" || Js.includes from "support"
       || Js.includes from "billing"
    then importantScore + 2 else importantScore in
  let unsubscribeMatch := exec true unsubscribePattern body in
  let unsubscribeLink := unsubscribeMatch in
  let marketingScore :=
    if Js.truthy unsubscribeLink then marketingScore + 3 else marketingScore in
  mkScores marketingScore importantScore unsubscribeLink.

Definition classifyEmail (email : EmailData.t) : EmailResult.t :=
  let s := scoreEmail email in
  let isMarketing := (importantScore s <? marketingScore s)%nat in
  EmailResult.mk
    (EmailData.id email)
    (EmailData.from email)
    (EmailData.subject email)
    (EmailData.date email)
    (if isMarketing then marketing else important)
    (if isMarketing
     then (if Js.truthy (unsubscribeLink s)
           then "Unsubscribe available" else "Mark as spam or delete")
     else "Keep and respond professionally if needed")
    (if isMarketing
     then "Marketing email detected (score: "
            ++ Js.numberToString (marketingScore s)
            ++ "). Contains promotional content."
     else "Important email detected (score: "
            ++ Js.numberToString (importantScore s)
            ++ "). Requires attention.")
    (unsubscribeLink s).

(** ** The batch *)

Module Stats.
Record t : Type := mk {
  total : nat;
  marketing : nat;
  important : nat;
  unsubscribed : nat
}.
End Stats.

Module Response.
Record t : Type := mk {
  results : list EmailResult.t;
  stats : Stats.t
}.
End Response.

(** [r.classification === 'marketing' && r.unsubscribeLink]. *)
Definition unsubscribable (r : EmailResult.t) : bool :=
  isMarketingLabel (EmailResult.classification r)
  && Js.truthy (EmailResult.unsubscribeLink r).

(** The handler from its [// Classify each email] comment on. *)
Definition classifyBatch (emails : list EmailData.t) (autoUnsubscribe : bool)
  : Response.t :=
  let results := map classifyEmail emails in
  let stats :=
    Stats.mk
      (List.length results)
      (List.length
         (filter (fun r => isMarketingLabel (EmailResult.classification r)) results))
      (List.length
         (filter (fun r => isImportantLabel (EmailResult.classification r)) results))
      (if autoUnsubscribe
       then List.length (filter unsubscribable results)
       else 0) in
  let results :=
    if autoUnsubscribe
    then map (fun result =>
                if unsubscribable result
                then EmailResult.setAction "Successfully unsubscribed" result
                else result)
             results
    else results in
  Response.mk results stats.

(** ** Demo data and the handler *)

Section Route.

(** [new Date(Date.now() - ms).toISOString()]: the rendering of the
    instant [ms] milliseconds before the clock reading.  No one reads
    the dates again. *)
Variable dateAgo : Z -> string.

Definition demoEmails : list EmailData.t :=
  [ EmailData.mk "1" "newsletter@techcompany.com"
      "🎉 Exclusive 50% OFF Sale - Limited Time!"
      (dateAgo (1000 * 60 * 60 * 2))
      "Hi there! Don't miss our biggest sale of the year. Get 50% off all products. Shop now! Click here to unsubscribe: https://techcompany.com/unsubscribe?id=123"
      [];
    EmailData.mk "2" "billing@yourbank.com"
      "Your Monthly Statement is Ready"
      (dateAgo (1000 * 60 * 60 * 24))
      "Your bank statement for this month is now available. Please review your transactions. Contact us if you have any questions."
      [];
    EmailData.mk "3" "noreply@deals.com"
      "Today Only: Free Shipping on Everything!"
      (dateAgo (1000 * 60 * 60 * 5))
      "Amazing deal alert! Free shipping on all orders today only. Don't wait! Unsubscribe here: https://deals.com/unsubscribe"
      [];
    EmailData.mk "4" "support@company.com"
      "Security Alert: New Login Detected"
      (dateAgo (1000 * 60 * 30))
      "We detected a new login to your account from a new device. If this wasn't you, please reset your password immediately."
      [];
    EmailData.mk "5" "marketing@fashion.com"
      "New Arrivals You'll Love ❤️"
      (dateAgo (1000 * 60 * 60 * 12))
      "Check out our latest collection! Spring fashion is here. Browse now and enjoy exclusive discounts. Unsubscribe: https://fashion.com/unsub"
      [];
    EmailData.mk "6" "admin@workspace.com"
      "Action Required: Verify Your Account"
      (dateAgo (1000 * 60 * 60 * 3))
      "Your account verification is pending. Please verify your email address within 24 hours to maintain access to your account."
      [] ].

(** The element the loop pushes at index [i]; [demoEmails] is never
    empty, so the default of [nth] is not reached. *)
Definition demoEmail (i : nat) : EmailData.t :=
  let template :=
    nth (i mod List.length demoEmails) demoEmails
        (EmailData.mk "" "" "" "" "" []) in
  EmailData.mk
    (Js.numberToString (i + 1))
    (EmailData.from template)
    (EmailData.subject template)
    (dateAgo (1000 * 60 * 60 * Z.of_nat i))
    (EmailData.body template)
    (EmailData.headers template).

(** [for (let i = 0; i < count; i++)]: no iteration when [count] is
    not positive. *)
Definition generateDemoEmails (count : Z) : list EmailData.t :=
  map demoEmail (seq 0 (Z.to_nat count)).

(** [Math.min(parseInt(config.maxEmails) || 50, 100)]. *)
Definition maxEmails (config : EmailConfig.t) : Z :=
  Z.min
    (Js.orElse (Js.parseInt (Js.toStringValue (EmailConfig.maxEmails config))) 50)
    100.

(** The handler, from the parsed request body to the body of the
    response. *)
Definition POST (config : EmailConfig.t) : Response.t :=
  let emails := generateDemoEmails (maxEmails config) in
  classifyBatch emails (EmailConfig.autoUnsubscribe config).

End Route.


(** ** The page *)

(** The state of the [Home] component and its event handlers.  A
    handler is a function from the state of the render it closes over
    to the state after its updates; the request of [handleSubmit] is
    represented by its outcome. *)

Module Status.
Inductive kind : Type := processing | success | error.

Record t : Type := mk {
  type : kind;
  message : string
}.
End Status.

Module Home.
Record t : Type := mk {
  processing : bool;
  results : list EmailResult.t;
  status : option Status.t;
  stats : Stats.t;
  config : EmailConfig.t
}.

(** The values of the [useState] calls. *)
Definition initial : t :=
  mk false [] None (Stats.mk 0 0 0 0)
     (EmailConfig.mk "gmail" "" "" "imap.gmail.com" "993" (Some "50") false).

Definition setConfig (c : EmailConfig.t) (s : t) : t :=
  mk (processing s) (results s) (status s) (stats s) c.

(** The [onChange] of the provider [select]. *)
Definition selectProvider (provider : string) (s : t) : t :=
  let c := config s in
  let imapHost := "imap.gmail.com" in
  let imapHost :=
    if provider =? "outlook" then "outlook.office365.com"
    else if provider =? "yahoo" then "imap.mail.yahoo.com"
    else imapHost in
  setConfig
    (EmailConfig.mk provider (EmailConfig.email c) (EmailConfig.password c)
       imapHost (EmailConfig.imapPort c) (EmailConfig.maxEmails c)
       (EmailConfig.autoUnsubscribe c))
    s.

(** The [onChange] of the host, port, size and check-box inputs. *)
Definition editImapHost (value : string) (s : t) : t :=
  let c := config s in
  setConfig
    (EmailConfig.mk (EmailConfig.provider c) (EmailConfig.email c)
       (EmailConfig.password c) value (EmailConfig.imapPort c)
       (EmailConfig.maxEmails c) (EmailConfig.autoUnsubscribe c))
    s.

Definition editImapPort (value : string) (s : t) : t :=
  let c := config s in
  setConfig
    (EmailConfig.mk (EmailConfig.provider c) (EmailConfig.email c)
       (EmailConfig.password c) (EmailConfig.imapHost c) value
       (EmailConfig.maxEmails c) (EmailConfig.autoUnsubscribe c))
    s.

Definition editMaxEmails (value : string) (s : t) : t :=
  let c := config s in
  setConfig
    (EmailConfig.mk (EmailConfig.provider c) (EmailConfig.email c)
       (EmailConfig.password c) (EmailConfig.imapHost c) (EmailConfig.imapPort c)
       (Some value) (EmailConfig.autoUnsubscribe c))
    s.

Definition editAutoUnsubscribe (checked : bool) (s : t) : t :=
  let c := config s in
  setConfig
    (EmailConfig.mk (EmailConfig.provider c) (EmailConfig.email c)
       (EmailConfig.password c) (EmailConfig.imapHost c) (EmailConfig.imapPort c)
       (EmailConfig.maxEmails c) checked)
    s.

(** What the [try] block of [handleSubmit] meets: a response that is
    [ok] and whose body parses to [data]; a response that is not [ok];
    or a rejection, by an [Error] with a message or by another value. *)
Inductive Outcome : Type :=
| Ok (data : Response.t)
| NotOk (statusText : string)
| Rejected (message : option string).

(** [handleSubmit] up to the request. *)
Definition submitting (s : t) : t :=
  mk true []
     (Some (Status.mk Status.processing
              "Connecting to email server and analyzing emails..."))
     (stats s) (config s).

(** [handleSubmit] from the response on. *)
Definition settle (o : Outcome) (s : t) : t :=
  let s :=
    match o with
    | Ok data =>
        mk (processing s) (Response.results data)
           (Some (Status.mk Status.success
                    ("Analyzed "
                       ++ Js.numberToString (Stats.total (Response.stats data))
                       ++ " emails. Found "
                       ++ Js.numberToString (Stats.marketing (Response.stats data))
                       ++ " marketing emails.")))
           (Response.stats data) (config s)
    | NotOk statusText =>
        mk (processing s) (results s)
           (Some (Status.mk Status.error
                    ("Failed to analyze emails: " ++ statusText)))
           (stats s) (config s)
    | Rejected message =>
        mk (processing s) (results s)
           (Some (Status.mk Status.error
                    (match message with
                     | Some m => m
                     | None => "An error occurred"
                     end)))
           (stats s) (config s)
    end in
  mk false (results s) (status s) (stats s) (config s).

Definition handleSubmit (o : Outcome) (s : t) : t := settle o (submitting s).

(** The guards of the statistics panel and of the result list. *)
Definition showsStats (s : t) : bool := (0 <? Stats.total (stats s))%nat.
Definition showsResults (s : t) : bool := (0 <? List.length (results s))%nat.
End Home.

(** ** What the claims speak of *)

(** [t] occurs in [s] as a substring satisfying [P]. *)
Definition Occurs (P : string -> Prop) (s : string) : Prop :=
  exists pre t post, s = pre ++ t ++ post /\ P t.

(** [kw] occurs in [s] up to the case of letters. *)
Definition CISubstring (kw s : string) : Prop :=
  Occurs (fun mid => Js.toLowerCase mid = Js.toLowerCase kw) s.

Fixpoint NoSpace (s : string) : Prop :=
  match s with
  | EmptyString => True
  | String c s' => Js.isWhiteSpace c = false /\ NoSpace s'
  end.

(** The tokens of the link grammar: a scheme, a non-empty run without
    white space, the word, and a run without white space. *)
Definition UnsubscribeUrl (t : string) : Prop :=
  exists scheme run1 w run2,
    t = scheme ++ run1 ++ w ++ run2
    /\ (Js.toLowerCase scheme = "http://" \/ Js.toLowerCase scheme = "https://")
    /\ run1 <> "" /\ NoSpace run1
    /\ Js.toLowerCase w = "unsubscribe"
    /\ NoSpace run2.

(** A value that is a string or [undefined] is present. *)
Definition isPresent (v : option string) : bool :=
  match v with Some _ => true | None => false end.

(** The test of the two keyword loops, on the fields of [email]. *)
Definition keywordHit (email : EmailData.t) (keyword : string) : bool :=
  Js.includes (Js.toLowerCase (EmailData.subject email)) keyword
  || Js.includes (Js.toLowerCase (EmailData.body email)) keyword.

(** The tests of the two sender patterns. *)
Definition marketingSender (email : EmailData.t) : bool :=
  let from := Js.toLowerCase (EmailData.from email) in
  Js.includes from "noreply" || Js.includes from "no-reply"
  || Js.includes from "marketing".

Definition importantSender (email : EmailData.t) : bool :=
  let from := Js.toLowerCase (EmailData.from email) in
  Js.includes from "admin" || Js.includes from "support"
  || Js.includes from "billing".

(** A text that is empty or starts with a white-space character. *)
Definition AtRunEnd (s : string) : Prop :=
  match s with
  | EmptyString => True
  | String c _ => Js.isWhiteSpace c = true
  end.

(** ** Facts about strings *)

Section StringFacts.

Lemma str_app_assoc (a b c : string) : (a ++ b) ++ c = a ++ (b ++ c).
Proof. induction a as [|x a IH]; simpl; [reflexivity | now rewrite IH]. Qed.

Lemma str_app_nil_r (a : string) : a ++ "" = a.
Proof. induction a as [|x a IH]; simpl; [reflexivity | now rewrite IH]. Qed.

Lemma str_app_length (a b : string) : length (a ++ b) = length a + length b.
Proof. induction a as [|x a IH]; simpl; [reflexivity | now rewrite IH]. Qed.

Lemma str_length_zero (a : string) : length a = 0 -> a = "".
Proof. destruct a; [reflexivity | discriminate]. Qed.

Lemma str_app_inv_head (a b c : string) : a ++ b = a ++ c -> b = c.
Proof.
  induction a as [|x a IH]; simpl; intros H; [exact H|].
  injection H as H. auto.
Qed.

(** Two ways of cutting one string: the shorter head is a prefix of
    the longer one. *)
Lemma str_app_eq_split (a b c d : string) :
  a ++ b = c ++ d -> length a <= length c ->
  exists m, c = a ++ m /\ b = m ++ d.
Proof.
  revert c. induction a as [|x a IH]; simpl; intros c H Hl.
  - exists c. split; [reflexivity | exact H].
  - destruct c as [|y c]; simpl in *; [lia|].
    injection H as Hxy H. subst y.
    destruct (IH c H) as (m & -> & ->); [lia|].
    exists m. split; reflexivity.
Qed.

Lemma substring_head (t rest : string) :
  substring 0 (length (t ++ rest) - length rest) (t ++ rest) = t.
Proof.
  rewrite str_app_length.
  replace (length t + length rest - length rest) with (length t) by lia.
  induction t as [|x t IH]; simpl.
  - destruct rest; reflexivity.
  - now rewrite IH.
Qed.

Lemma prefix_spec (p s : string) :
  prefix p s = true <-> exists r, s = p ++ r.
Proof.
  revert s. induction p as [|x p IH]; intros s; simpl.
  - split; [intros _; exists s; reflexivity | intros _; now destruct s].
  - destruct s as [|y s]; simpl.
    + split; [discriminate | intros (r & H); discriminate].
    + destruct (ascii_dec x y) as [->|Hn].
      * rewrite IH. split; intros (r & H); exists r;
          [now rewrite H | now injection H].
      * split; [discriminate | intros (r & H); injection H as H1 _; congruence].
Qed.

Lemma includes_spec (s kw : string) :
  Js.includes s kw = true <-> Occurs (eq kw) s.
Proof.
  unfold Occurs. induction s as [|x s IH]; cbn [Js.includes].
  - rewrite orb_false_r, prefix_spec. split.
    + intros (r & H). exists "", kw, r. auto.
    + intros (pre & t & post & H & <-).
      destruct pre; [|discriminate]. exists post. exact H.
  - rewrite orb_true_iff, IH, prefix_spec. split.
    + intros [(r & H) | (pre & t & post & H & <-)].
      * exists "", kw, r. auto.
      * exists (String x pre), kw, post. simpl. now rewrite H.
    + intros (pre & t & post & H & <-). destruct pre as [|y pre]; simpl in H.
      * left. exists post. exact H.
      * right. injection H as _ H. exists pre, kw, post. auto.
Qed.

Lemma toLowerCase_app (a b : string) :
  Js.toLowerCase (a ++ b) = Js.toLowerCase a ++ Js.toLowerCase b.
Proof. induction a as [|x a IH]; simpl; [reflexivity | now rewrite IH]. Qed.

Lemma toLowerCase_length (a : string) : length (Js.toLowerCase a) = length a.
Proof. induction a as [|x a IH]; simpl; [reflexivity | now rewrite IH]. Qed.

Lemma toLowerCase_app_inv (s a b : string) :
  Js.toLowerCase s = a ++ b ->
  exists a' b', s = a' ++ b' /\ Js.toLowerCase a' = a /\ Js.toLowerCase b' = b.
Proof.
  revert s. induction a as [|x a IH]; simpl; intros s H.
  - exists "", s. auto.
  - destruct s as [|y s]; simpl in H; [discriminate|].
    injection H as Hx H. destruct (IH s H) as (a' & b' & -> & <- & <-).
    exists (String y a'), b'. simpl. now rewrite Hx.
Qed.

Lemma toLowerChar_idem (c : ascii) :
  Js.toLowerChar (Js.toLowerChar c) = Js.toLowerChar c.
Proof. destruct c as [[] [] [] [] [] [] [] []]; reflexivity. Qed.

Lemma toLowerCase_idem (s : string) :
  Js.toLowerCase (Js.toLowerCase s) = Js.toLowerCase s.
Proof.
  induction s as [|x s IH]; simpl; [reflexivity|].
  now rewrite toLowerChar_idem, IH.
Qed.

Lemma toLowerCase_substring (n m : nat) (s : string) :
  Js.toLowerCase (substring n m s) = substring n m (Js.toLowerCase s).
Proof.
  revert n m. induction s as [|x s IH]; intros [|n] [|m]; simpl;
    try reflexivity; now rewrite IH.
Qed.

(** Occurrences in the lower-cased text are the lower-cased
    occurrences of the text. *)
Lemma Occurs_toLowerCase (P : string -> Prop) (s : string) :
  Occurs P (Js.toLowerCase s) <-> Occurs (fun t => P (Js.toLowerCase t)) s.
Proof.
  unfold Occurs. split.
  - intros (pre & t & post & H & Ht).
    apply toLowerCase_app_inv in H. destruct H as (pre' & r & -> & <- & H).
    apply toLowerCase_app_inv in H. destruct H as (t' & post' & -> & <- & <-).
    exists pre', t', post'. auto.
  - intros (pre & t & post & -> & Ht).
    exists (Js.toLowerCase pre), (Js.toLowerCase t), (Js.toLowerCase post).
    now rewrite !toLowerCase_app.
Qed.

(** [includes] on the lower-cased text is containment up to case,
    for a keyword written in lower case. *)
Lemma includes_toLowerCase (s kw : string) :
  Js.toLowerCase kw = kw ->
  (Js.includes (Js.toLowerCase s) kw = true <-> CISubstring kw s).
Proof.
  intros Hkw. unfold CISubstring.
  rewrite includes_spec, Occurs_toLowerCase, Hkw.
  unfold Occurs. split; intros (pre & t & post & H & Ht);
    exists pre, t, post; auto.
Qed.

End StringFacts.

(** ** The matcher finds what the pattern denotes *)

Section MatcherFacts.

Variable ic : bool.

Lemma repeatMatcher_sound (r : regex) (m : Matcher) :
  SoundFor ic r m ->
  forall n, SoundFor ic (Star r) (fun x c => repeatMatcher m n x c).
Proof.
  intros Hm n. induction n as [|n IH]; intros x c z; simpl.
  - intros H. exists "", x. repeat split; [constructor | exact H].
  - destruct (m x _) as [z0|] eqn:E.
    + intros [= ->]. apply Hm in E. destruct E as (t1 & y1 & -> & L1 & K).
      destruct (length y1 <? length (t1 ++ y1))%nat; [|discriminate].
      apply IH in K. destruct K as (t2 & y & -> & L2 & K).
      exists (t1 ++ t2), y. rewrite str_app_assoc.
      repeat split; [now constructor | exact K].
    + intros H. exists "", x. repeat split; [constructor | exact H].
Qed.

Lemma repeatMatcher_once_sound (r : regex) (m : Matcher) :
  SoundFor ic r m -> SoundFor ic (Opt r) (fun x c => repeatMatcher m 1 x c).
Proof.
  intros Hm x c z. simpl. destruct (m x _) as [z0|] eqn:E.
  - intros [= ->]. apply Hm in E. destruct E as (t & y & -> & L & K).
    destruct (length y <? length (t ++ y))%nat; [|discriminate].
    exists t, y. repeat split; [now apply LOptSome | exact K].
  - intros H. exists "", x. repeat split; [apply LOptNone | exact H].
Qed.

Lemma compile_sound (r : regex) : SoundFor ic r (compile ic r).
Proof.
  induction r as [| ch | | r IH | r IH | r1 IH1 r2 IH2]; intros x c z; simpl.
  - intros H. exists "", x. repeat split; [constructor | exact H].
  - destruct x as [|a y]; [discriminate|].
    destruct (Ascii.eqb_spec (canonicalize ic a) (canonicalize ic ch)) as [E|];
      [|discriminate].
    intros H. exists (String a ""), y. repeat split; [now constructor | exact H].
  - destruct x as [|a y]; [discriminate|].
    destruct (Js.isWhiteSpace a) eqn:E; [discriminate|].
    intros H. exists (String a ""), y. repeat split; [now constructor | exact H].
  - apply (repeatMatcher_once_sound r _ IH).
  - apply (repeatMatcher_sound r _ IH).
  - intros H. apply IH1 in H. destruct H as (t1 & y1 & -> & L1 & H).
    apply IH2 in H. destruct H as (t2 & y & -> & L2 & H).
    exists (t1 ++ t2), y. rewrite str_app_assoc.
    repeat split; [now constructor | exact H].
Qed.

Lemma repeatMatcher_complete (r : regex) (m : Matcher) :
  CompleteFor ic r m ->
  forall t, Lang ic (Star r) t ->
  forall n y c, length (t ++ y) <= n -> c y <> None ->
    repeatMatcher m n (t ++ y) c <> None.
Proof.
  intros Hm t L. remember (Star r) as sr eqn:Esr.
  induction L as [| | | | | r0 | r0 t1 t2 L1 _ L2 IH2 |]; try discriminate.
  - intros n y c _ Hc. destruct n as [|n]; simpl; [exact Hc|].
    destruct (m y _); [discriminate | exact Hc].
  - injection Esr as ->. specialize (IH2 eq_refl).
    destruct t1 as [|a t1]; [exact IH2|].
    intros n y c Hn Hc. destruct n as [|n]; [simpl in Hn; lia|].
    cbn [repeatMatcher].
    match goal with |- match m ?x ?k with _ => _ end <> None =>
      assert (Hk : m x k <> None) end.
    { rewrite str_app_assoc. apply Hm; [exact L1|].
      rewrite <- str_app_assoc.
      replace (length (t2 ++ y) <? length ((String a t1 ++ t2) ++ y))%nat with true.
      - apply IH2; [|exact Hc]. rewrite str_app_assoc in Hn. simpl in Hn.
        rewrite str_app_length in Hn. lia.
      - symmetry. apply Nat.ltb_lt. rewrite !str_app_length. simpl. lia. }
    destruct (m _ _); [discriminate | contradiction].
Qed.

Lemma repeatMatcher_once_complete (r : regex) (m : Matcher) :
  CompleteFor ic r m -> CompleteFor ic (Opt r) (fun x c => repeatMatcher m 1 x c).
Proof.
  intros Hm t y c L Hc. simpl. inversion L as [| | | r0 | r0 t0 L0 | | |]; subst.
  - simpl. destruct (m y _); [discriminate | exact Hc].
  - destruct t as [|a t].
    + simpl. destruct (m y _); [discriminate | exact Hc].
    + match goal with |- match m ?x ?k with _ => _ end <> None =>
        assert (Hk : m x k <> None) end.
      { apply Hm; [exact L0|].
        replace (length y <? length (String a t ++ y))%nat with true; [exact Hc|].
        symmetry. apply Nat.ltb_lt. simpl. rewrite str_app_length. lia. }
      destruct (m _ _); [discriminate | contradiction].
Qed.

Lemma compile_complete (r : regex) : CompleteFor ic r (compile ic r).
Proof.
  induction r as [| ch | | r IH | r IH | r1 IH1 r2 IH2]; intros t y c L Hc.
  - inversion L; subst. exact Hc.
  - inversion L as [| ch0 a E | | | | | |]; subst. simpl.
    rewrite E, Ascii.eqb_refl. exact Hc.
  - inversion L as [| | a E | | | | |]; subst. simpl. rewrite E. exact Hc.
  - apply (repeatMatcher_once_complete r _ IH); assumption.
  - simpl. apply (repeatMatcher_complete r _ IH); [exact L | lia | exact Hc].
  - inversion L as [| | | | | | | r1' r2' t1 t2 L1 L2]; subst. simpl.
    rewrite str_app_assoc. apply IH1; [exact L1|]. apply IH2; assumption.
Qed.

(** A successful run from the start of [s] consumed a word of the
    pattern. *)
Lemma compile_Some (r : regex) (s rest : string) :
  compile ic r s Some = Some rest ->
  s = substring 0 (length s - length rest) s ++ rest
  /\ Lang ic r (substring 0 (length s - length rest) s).
Proof.
  intros H. apply compile_sound in H. destruct H as (t & y & -> & L & [= ->]).
  rewrite substring_head. auto.
Qed.

Lemma compile_None (r : regex) (t rest : string) :
  Lang ic r t -> compile ic r (t ++ rest) Some <> None.
Proof. intros L. apply compile_complete; [exact L | discriminate]. Qed.

(** [exec] returns a word of the pattern, at the least index where
    one starts. *)
Lemma exec_sound (r : regex) (s t : string) :
  exec ic r s = Some t ->
  exists pre post,
    s = pre ++ t ++ post /\ Lang ic r t
    /\ forall pre' t' post', s = pre' ++ t' ++ post' -> Lang ic r t' ->
         length pre <= length pre'.
Proof.
  revert t. induction s as [|a s IH]; intros t; cbn [exec].
  - destruct (compile ic r "" Some) as [rest|] eqn:E; [|discriminate].
    intros [= <-]. apply compile_Some in E. destruct E as (E & L).
    exists "", rest. repeat split; [exact E | exact L | simpl; lia].
  - destruct (compile ic r (String a s) Some) as [rest|] eqn:E.
    + intros [= <-]. apply compile_Some in E. destruct E as (E & L).
      exists "", rest. repeat split; [exact E | exact L | simpl; lia].
    + intros H. apply IH in H. destruct H as (pre & post & -> & L & Hmin).
      exists (String a pre), post. repeat split; [exact L|].
      intros pre' t' post' E' L'. destruct pre' as [|b pre']; simpl in E'.
      * exfalso. rewrite E' in E. now apply compile_None in E.
      * injection E' as _ E'. simpl. apply le_n_S. eapply Hmin; eassumption.
Qed.

Lemma exec_complete (r : regex) (s : string) :
  Occurs (Lang ic r) s -> exec ic r s <> None.
Proof.
  intros (pre & t & post & -> & L). induction pre as [|a pre IH].
  - pose proof (compile_None r t post L) as H. cbn [append].
    destruct (t ++ post); cbn [exec];
      destruct (compile ic r _ Some); solve [discriminate | contradiction].
  - cbn [append exec].
    destruct (compile ic r _ Some); [discriminate | exact IH].
Qed.

Lemma exec_found (r : regex) (s : string) :
  exec ic r s <> None <-> Occurs (Lang ic r) s.
Proof.
  split; [|apply exec_complete].
  destruct (exec ic r s) as [t|] eqn:E; [intros _ | congruence].
  apply exec_sound in E. destruct E as (pre & post & E & L & _).
  exists pre, t, post. auto.
Qed.

End MatcherFacts.

(** ** Matching a lower-cased text *)

Section LowerCase.

Lemma canonicalize_toLowerChar (a : ascii) :
  canonicalize true (Js.toLowerChar a) = canonicalize true a.
Proof. destruct a as [[] [] [] [] [] [] [] []]; reflexivity. Qed.

Lemma toLowerChar_canonicalize (a : ascii) :
  Js.toLowerChar (canonicalize true a) = Js.toLowerChar a.
Proof. destruct a as [[] [] [] [] [] [] [] []]; reflexivity. Qed.

Lemma canonicalize_eq_iff (a b : ascii) :
  canonicalize true a = canonicalize true b <-> Js.toLowerChar a = Js.toLowerChar b.
Proof.
  split; intros H.
  - rewrite <- (toLowerChar_canonicalize a), H. apply toLowerChar_canonicalize.
  - rewrite <- (canonicalize_toLowerChar a), H. apply canonicalize_toLowerChar.
Qed.

Lemma isWhiteSpace_toLowerChar (a : ascii) :
  Js.isWhiteSpace (Js.toLowerChar a) = Js.isWhiteSpace a.
Proof. destruct a as [[] [] [] [] [] [] [] []]; reflexivity. Qed.

Lemma repeatMatcher_toLowerCase (m m' : Matcher) :
  (forall x c c',
      (forall y, c' (Js.toLowerCase y) = option_map Js.toLowerCase (c y)) ->
      m' (Js.toLowerCase x) c' = option_map Js.toLowerCase (m x c)) ->
  forall n x c c',
    (forall y, c' (Js.toLowerCase y) = option_map Js.toLowerCase (c y)) ->
    repeatMatcher m' n (Js.toLowerCase x) c'
    = option_map Js.toLowerCase (repeatMatcher m n x c).
Proof.
  intros Hm n. induction n as [|n IH]; intros x c c' Hc; cbn [repeatMatcher].
  - apply Hc.
  - rewrite (Hm x (fun y => if (length y <? length x)%nat
                             then repeatMatcher m n y c else None)).
    + destruct (m x _); [reflexivity | apply Hc].
    + intros y. cbv beta. rewrite !toLowerCase_length.
      destruct (length y <? length x)%nat; [now apply IH | reflexivity].
Qed.

Lemma compile_toLowerCase (r : regex) (x : string) (c c' : Continuation) :
  (forall y, c' (Js.toLowerCase y) = option_map Js.toLowerCase (c y)) ->
  compile true r (Js.toLowerCase x) c'
  = option_map Js.toLowerCase (compile true r x c).
Proof.
  revert x c c'.
  induction r as [| ch | | r IH | r IH | r1 IH1 r2 IH2]; intros x c c' Hc;
    cbn [compile].
  - apply Hc.
  - destruct x as [|a y]; [reflexivity|]. cbn [Js.toLowerCase].
    rewrite canonicalize_toLowerChar.
    destruct (Ascii.eqb _ _); [apply Hc | reflexivity].
  - destruct x as [|a y]; [reflexivity|]. cbn [Js.toLowerCase].
    rewrite isWhiteSpace_toLowerChar.
    destruct (Js.isWhiteSpace a); [reflexivity | apply Hc].
  - now apply repeatMatcher_toLowerCase.
  - rewrite toLowerCase_length. now apply repeatMatcher_toLowerCase.
  - apply IH1. intros y. now apply IH2.
Qed.

(** Searching the lower-cased text finds the lower-cased form of what
    the search of the text itself finds. *)
Lemma exec_toLowerCase (r : regex) (s : string) :
  exec true r (Js.toLowerCase s) = option_map Js.toLowerCase (exec true r s).
Proof.
  assert (Hhead : forall x,
    compile true r (Js.toLowerCase x) Some
    = option_map Js.toLowerCase (compile true r x Some))
    by (intros x; now apply compile_toLowerCase).
  induction s as [|a s IH].
  - cbn [Js.toLowerCase exec]. specialize (Hhead ""). cbn [Js.toLowerCase] in Hhead.
    rewrite Hhead. destruct (compile true r "" Some) as [rest|]; [|reflexivity].
    cbn [option_map]. now destruct rest.
  - specialize (Hhead (String a s)). cbn [Js.toLowerCase] in Hhead.
    cbn [Js.toLowerCase exec]. rewrite Hhead.
    destruct (compile true r (String a s) Some) as [rest|]; cbn [option_map].
    + change (String (Js.toLowerChar a) (Js.toLowerCase s))
        with (Js.toLowerCase (String a s)).
      rewrite toLowerCase_substring, !toLowerCase_length. reflexivity.
    + exact IH.
Qed.

End LowerCase.

(** ** The link grammar *)

Section LinkGrammar.

Lemma NoSpace_app (a b : string) : NoSpace (a ++ b) <-> NoSpace a /\ NoSpace b.
Proof. induction a as [|x a IH]; simpl; tauto. Qed.

Lemma Lang_Seq (ic : bool) (r1 r2 : regex) (t : string) :
  Lang ic (Seq r1 r2) t <->
  exists t1 t2, t = t1 ++ t2 /\ Lang ic r1 t1 /\ Lang ic r2 t2.
Proof.
  split.
  - intros L. inversion L; subst. eauto.
  - intros (t1 & t2 & -> & L1 & L2). now constructor.
Qed.

Lemma Lang_word (w t : string) :
  Lang true (word w) t <-> Js.toLowerCase t = Js.toLowerCase w.
Proof.
  revert t. induction w as [|ch w IH]; intros t; cbn [word].
  - split.
    + intros L. inversion L. reflexivity.
    + destruct t; [constructor | discriminate].
  - rewrite Lang_Seq. split.
    + intros (t1 & t2 & -> & L1 & L2). inversion L1 as [| ch0 a E | | | | | |]; subst.
      apply canonicalize_eq_iff in E. apply IH in L2. simpl. now rewrite E, L2.
    + destruct t as [|a t]; [discriminate|]. simpl. intros [= E1 E2].
      exists (String a ""), t. repeat split.
      * constructor. now apply canonicalize_eq_iff.
      * now apply IH.
Qed.

Lemma Lang_NotSpace (ic : bool) (t : string) :
  Lang ic NotSpace t <-> exists a, t = String a "" /\ Js.isWhiteSpace a = false.
Proof.
  split.
  - intros L. inversion L; subst. eauto.
  - intros (a & -> & E). now constructor.
Qed.

Lemma Lang_Star_NotSpace (ic : bool) (t : string) :
  Lang ic (Star NotSpace) t <-> NoSpace t.
Proof.
  split.
  - intros L. remember (Star NotSpace) as sr eqn:E.
    induction L as [| | | | | | r t1 t2 L1 _ L2 IH2 |]; try discriminate.
    + exact I.
    + injection E as ->. apply NoSpace_app. split; [|now apply IH2].
      apply Lang_NotSpace in L1. destruct L1 as (a & -> & Ha). simpl. auto.
  - induction t as [|a t IH]; [constructor|].
    intros [Ha Ht]. apply (LStarCons ic NotSpace (String a "") t);
      [now constructor | now apply IH].
Qed.

Lemma Lang_Plus_NotSpace (ic : bool) (t : string) :
  Lang ic (Plus NotSpace) t <-> t <> "" /\ NoSpace t.
Proof.
  unfold Plus. rewrite Lang_Seq. split.
  - intros (t1 & t2 & -> & L1 & L2). apply Lang_NotSpace in L1.
    destruct L1 as (a & -> & Ha). apply Lang_Star_NotSpace in L2.
    simpl. split; [discriminate | auto].
  - intros [Hne Ht]. destruct t as [|a t]; [contradiction|]. destruct Ht as [Ha Ht].
    exists (String a ""), t. repeat split; [now constructor|].
    now apply Lang_Star_NotSpace.
Qed.

Lemma Lang_Opt_s (t : string) :
  Lang true (Opt (Lit "s")) t <-> t = "" \/ Js.toLowerCase t = "s".
Proof.
  split.
  - intros L. inversion L as [| | | | r t0 L0 | | |]; subst; [now left|].
    right. inversion L0 as [| ch a E | | | | | |]; subst.
    apply canonicalize_eq_iff in E. simpl. now rewrite E.
  - intros [-> | E]; [apply LOptNone|]. apply LOptSome.
    destruct t as [|a [|b t]]; try discriminate. injection E as E.
    constructor. now apply canonicalize_eq_iff.
Qed.

(** The pattern denotes the tokens of the link grammar. *)
Lemma Lang_unsubscribePattern (t : string) :
  Lang true unsubscribePattern t <-> UnsubscribeUrl t.
Proof.
  unfold unsubscribePattern, UnsubscribeUrl. split.
  - intros L.
    apply Lang_Seq in L. destruct L as (h & t1 & -> & Lh & L).
    apply Lang_Seq in L. destruct L as (o & t2 & -> & Lo & L).
    apply Lang_Seq in L. destruct L as (c & t3 & -> & Lc & L).
    apply Lang_Seq in L. destruct L as (run1 & t4 & -> & L1 & L).
    apply Lang_Seq in L. destruct L as (w & run2 & -> & Lw & L2).
    apply Lang_word in Lh, Lc, Lw. apply Lang_Opt_s in Lo.
    apply Lang_Plus_NotSpace in L1. apply Lang_Star_NotSpace in L2.
    exists (h ++ o ++ c), run1, w, run2. rewrite !str_app_assoc.
    repeat split; try tauto.
    rewrite !toLowerCase_app, Lh, Lc.
    destruct Lo as [-> | ->]; [now left | now right].
  - intros (scheme & run1 & w & run2 & -> & Hs & Hne & H1 & Hw & H2).
    assert (Ls : exists h o c, scheme = h ++ o ++ c
                 /\ Lang true (word "http") h
                 /\ Lang true (Opt (Lit "s")) o
                 /\ Lang true (word "://") c).
    { destruct Hs as [Hs | Hs].
      - apply (toLowerCase_app_inv scheme "http" "://") in Hs.
        destruct Hs as (h & c & -> & Hh & Hc). exists h, "", c.
        repeat split; [now apply Lang_word | apply LOptNone | now apply Lang_word].
      - apply (toLowerCase_app_inv scheme "http" "s://") in Hs.
        destruct Hs as (h & oc & -> & Hh & Hoc).
        apply (toLowerCase_app_inv oc "s" "://") in Hoc.
        destruct Hoc as (o & c & -> & Ho & Hc). exists h, o, c.
        repeat split; [now apply Lang_word | apply Lang_Opt_s; now right
                      | now apply Lang_word]. }
    destruct Ls as (h & o & c & -> & Lh & Lo & Lc).
    rewrite !str_app_assoc.
    apply Lang_Seq. exists h, (o ++ c ++ run1 ++ w ++ run2). repeat split; [exact Lh|].
    apply Lang_Seq. exists o, (c ++ run1 ++ w ++ run2). repeat split; [exact Lo|].
    apply Lang_Seq. exists c, (run1 ++ w ++ run2). repeat split; [exact Lc|].
    apply Lang_Seq. exists run1, (w ++ run2).
    repeat split; [now apply Lang_Plus_NotSpace|].
    apply Lang_Seq. exists w, run2.
    repeat split; [now apply Lang_word | now apply Lang_Star_NotSpace].
Qed.

Lemma UnsubscribeUrl_nonempty (t : string) : UnsubscribeUrl t -> t <> "".
Proof.
  intros (scheme & run1 & w & run2 & -> & Hs & _).
  destruct scheme; [|discriminate]. destruct Hs; discriminate.
Qed.

(** A token stays a token when its letters change case. *)
Lemma UnsubscribeUrl_toLowerCase (t : string) :
  UnsubscribeUrl (Js.toLowerCase t) <-> UnsubscribeUrl t.
Proof.
  assert (HN : forall s, NoSpace (Js.toLowerCase s) <-> NoSpace s).
  { induction s as [|a s IH]; simpl; [tauto|].
    rewrite isWhiteSpace_toLowerChar. tauto. }
  unfold UnsubscribeUrl. split.
  - intros (scheme & run1 & w & run2 & E & Hs & Hne & H1 & Hw & H2).
    apply toLowerCase_app_inv in E. destruct E as (scheme' & r & -> & <- & E).
    apply toLowerCase_app_inv in E. destruct E as (run1' & r' & -> & <- & E).
    apply toLowerCase_app_inv in E. destruct E as (w' & run2' & -> & <- & <-).
    exists scheme', run1', w', run2'. rewrite toLowerCase_idem in Hs, Hw.
    repeat split; try tauto.
    + intros ->. now apply Hne.
    + now apply HN.
    + now apply HN.
  - intros (scheme & run1 & w & run2 & -> & Hs & Hne & H1 & Hw & H2).
    exists (Js.toLowerCase scheme), (Js.toLowerCase run1),
           (Js.toLowerCase w), (Js.toLowerCase run2).
    rewrite !toLowerCase_app, !toLowerCase_idem.
    repeat split; try tauto.
    + destruct run1; [contradiction | discriminate].
    + now apply HN.
    + now apply HN.
Qed.

End LinkGrammar.

(** ** The scorer *)

Section Scorer.

Lemma Occurs_iff (P Q : string -> Prop) (s : string) :
  (forall t, P t <-> Q t) -> (Occurs P s <-> Occurs Q s).
Proof.
  intros H. unfold Occurs.
  split; intros (pre & t & post & E & Ht); exists pre, t, post;
    (split; [exact E | now apply H]).
Qed.

Lemma countKeywords_filter (keywords : list string) (subject body : string) (n : nat) :
  countKeywords keywords subject body n
  = n + List.length
          (filter (fun kw => Js.includes subject kw || Js.includes body kw) keywords).
Proof.
  unfold countKeywords. revert n.
  induction keywords as [|kw kws IH]; intros n; simpl; [lia|].
  rewrite IH. destruct (Js.includes subject kw || Js.includes body kw); simpl; lia.
Qed.

Lemma scoreEmail_link (email : EmailData.t) :
  unsubscribeLink (scoreEmail email)
  = exec true unsubscribePattern (Js.toLowerCase (EmailData.body email)).
Proof. reflexivity. Qed.

Lemma classifyEmail_link (email : EmailData.t) :
  EmailResult.unsubscribeLink (classifyEmail email)
  = unsubscribeLink (scoreEmail email).
Proof. reflexivity. Qed.

(** The link is the lower-cased form of the first token of the body. *)
Lemma scoreEmail_link_lowercased (email : EmailData.t) :
  unsubscribeLink (scoreEmail email)
  = option_map Js.toLowerCase
      (exec true unsubscribePattern (EmailData.body email)).
Proof. rewrite scoreEmail_link. apply exec_toLowerCase. Qed.

(** A link is recorded exactly when the body holds a token. *)
Lemma scoreEmail_link_found (email : EmailData.t) :
  unsubscribeLink (scoreEmail email) <> None
  <-> Occurs UnsubscribeUrl (EmailData.body email).
Proof.
  rewrite scoreEmail_link, exec_found, Occurs_toLowerCase.
  apply Occurs_iff. intros t.
  rewrite Lang_unsubscribePattern. apply UnsubscribeUrl_toLowerCase.
Qed.

(** A recorded link is a token, so it is not the empty string and
    counts as true. *)
Lemma scoreEmail_link_truthy (email : EmailData.t) :
  Js.truthy (unsubscribeLink (scoreEmail email))
  = isPresent (unsubscribeLink (scoreEmail email)).
Proof.
  rewrite scoreEmail_link.
  destruct (exec true unsubscribePattern _) as [t|] eqn:E; [|reflexivity].
  apply exec_sound in E. destruct E as (pre & post & _ & L & _).
  apply Lang_unsubscribePattern, UnsubscribeUrl_nonempty in L.
  simpl. destruct t; [contradiction | reflexivity].
Qed.

Lemma scoreEmail_marketingScore (email : EmailData.t) :
  marketingScore (scoreEmail email)
  = List.length (filter (keywordHit email) marketingKeywords)
    + (if marketingSender email then 2 else 0)
    + (if isPresent (unsubscribeLink (scoreEmail email)) then 3 else 0).
Proof.
  rewrite <- scoreEmail_link_truthy.
  unfold scoreEmail, marketingSender; cbn [marketingScore unsubscribeLink].
  rewrite countKeywords_filter. fold (keywordHit email).
  destruct (Js.truthy _); destruct (_ || _ || _); lia.
Qed.

Lemma scoreEmail_importantScore (email : EmailData.t) :
  importantScore (scoreEmail email)
  = List.length (filter (keywordHit email) importantKeywords)
    + (if importantSender email then 2 else 0).
Proof.
  unfold scoreEmail, importantSender; cbn [importantScore].
  rewrite countKeywords_filter. fold (keywordHit email).
  destruct (_ || _ || _); lia.
Qed.

Lemma keywordHit_spec (email : EmailData.t) (kw : string) :
  Js.toLowerCase kw = kw ->
  (keywordHit email kw = true
   <-> CISubstring kw (EmailData.subject email)
       \/ CISubstring kw (EmailData.body email)).
Proof.
  intros Hkw. unfold keywordHit.
  now rewrite orb_true_iff, !includes_toLowerCase.
Qed.

Lemma keywords_lowercase (kw : string) :
  In kw (marketingKeywords ++ importantKeywords)%list -> Js.toLowerCase kw = kw.
Proof.
  revert kw. apply Forall_forall.
  repeat (apply Forall_cons; [reflexivity|]). apply Forall_nil.
Qed.

End Scorer.

(** ** The classifier *)

(** C1: [classifyEmail] labels an email [marketing] exactly when its
    marketing score is strictly greater than its important score; on
    equal scores the label is [important], as for an email with empty
    subject and body from a sender matching no pattern, whose scores
    are 0 and 0. *)
Theorem classification_marketing_iff_score_greater (email : EmailData.t) :
  (EmailResult.classification (classifyEmail email) = marketing
   <-> marketingScore (scoreEmail email) > importantScore (scoreEmail email))
  /\ (marketingScore (scoreEmail email) = importantScore (scoreEmail email) ->
      EmailResult.classification (classifyEmail email) = important)
  /\ (let empty := EmailData.mk "7" "x@example.com" "" "2024-01-01T00:00:00.000Z" "" [] in
      marketingScore (scoreEmail empty) = 0
      /\ importantScore (scoreEmail empty) = 0
      /\ EmailResult.classification (classifyEmail empty) = important).
Proof.
  unfold classifyEmail; cbn [EmailResult.classification].
  repeat split; try reflexivity.
  - destruct (Nat.ltb_spec (importantScore (scoreEmail email))
                           (marketingScore (scoreEmail email)));
      [intros _; assumption | discriminate].
  - intros H. apply Nat.ltb_lt in H. now rewrite H.
  - intros H. rewrite H, Nat.ltb_irrefl. reflexivity.
Qed.

(** C2, at an input where it fails: the body holds the token
    [https://Example.com/Unsubscribe?ID=AbC123], which is what a search
    of the body itself returns, but the recorded link is its
    lower-cased form, because the search runs on the lower-cased body. *)
Theorem unsubscribeLink_loses_original_casing :
  let email :=
    EmailData.mk "1" "news@example.com" "Weekly digest"
      "2024-01-01T00:00:00.000Z"
      "To leave, visit https://Example.com/Unsubscribe?ID=AbC123 today."
      [] in
  exec true unsubscribePattern (EmailData.body email)
  = Some "https://Example.com/Unsubscribe?ID=AbC123"
  /\ EmailResult.unsubscribeLink (classifyEmail email)
     = Some "https://example.com/unsubscribe?id=abc123".
Proof. split; vm_compute; reflexivity. Qed.

(** C5: an entry of a keyword table adds one to its score exactly when
    it occurs, up to case, in the subject or in the body, and once even
    when it occurs in both; a sender matching any of the marketing
    patterns adds two, once, to the marketing score, and likewise for
    the important patterns and the important score.  The marketing
    score holds nothing else but the three points of a recorded link. *)
Theorem scores_count_table_entries_and_sender (email : EmailData.t) :
  (forall kw, In kw (marketingKeywords ++ importantKeywords)%list ->
     (keywordHit email kw = true
      <-> CISubstring kw (EmailData.subject email)
          \/ CISubstring kw (EmailData.body email)))
  /\ NoDup marketingKeywords /\ NoDup importantKeywords
  /\ (marketingSender email = true
      <-> CISubstring "noreply" (EmailData.from email)
          \/ CISubstring "no-reply" (EmailData.from email)
          \/ CISubstring "marketing" (EmailData.from email))
  /\ (importantSender email = true
      <-> CISubstring "admin" (EmailData.from email)
          \/ CISubstring "support" (EmailData.from email)
          \/ CISubstring "billing" (EmailData.from email))
  /\ marketingScore (scoreEmail email)
     = List.length (filter (keywordHit email) marketingKeywords)
       + (if marketingSender email then 2 else 0)
       + (if isPresent (unsubscribeLink (scoreEmail email)) then 3 else 0)
  /\ importantScore (scoreEmail email)
     = List.length (filter (keywordHit email) importantKeywords)
       + (if importantSender email then 2 else 0).
Proof.
  split; [|split; [|split; [|split; [|split; [|split]]]]].
  - intros kw Hin. apply keywordHit_spec, keywords_lowercase, Hin.
  - repeat (apply NoDup_cons; [simpl; intuition discriminate|]). apply NoDup_nil.
  - repeat (apply NoDup_cons; [simpl; intuition discriminate|]). apply NoDup_nil.
  - unfold marketingSender. cbv zeta.
    rewrite !orb_true_iff, !includes_toLowerCase by reflexivity. tauto.
  - unfold importantSender. cbv zeta.
    rewrite !orb_true_iff, !includes_toLowerCase by reflexivity. tauto.
  - apply scoreEmail_marketingScore.
  - apply scoreEmail_importantScore.
Qed.

(** C6: when the body holds the word "unsubscribe" but no token of the
    link grammar, no link is recorded and the marketing score has no
    link bonus, while "unsubscribe" is among the marketing keywords
    counted. *)
Theorem plain_unsubscribe_word_records_no_link (email : EmailData.t) :
  CISubstring "unsubscribe" (EmailData.body email) ->
  ~ Occurs UnsubscribeUrl (EmailData.body email) ->
  EmailResult.unsubscribeLink (classifyEmail email) = None
  /\ In "unsubscribe" (filter (keywordHit email) marketingKeywords)
  /\ marketingScore (scoreEmail email)
     = List.length (filter (keywordHit email) marketingKeywords)
       + (if marketingSender email then 2 else 0).
Proof.
  intros Hword Hno.
  assert (Hl : unsubscribeLink (scoreEmail email) = None).
  { destruct (unsubscribeLink (scoreEmail email)) eqn:E; [|reflexivity].
    exfalso. apply Hno, scoreEmail_link_found. congruence. }
  split; [exact Hl|]. split.
  - apply filter_In. split; [now left|].
    apply keywordHit_spec; [reflexivity | now right].
  - rewrite scoreEmail_marketingScore, Hl. cbn [isPresent]. lia.
Qed.

(** The word, twice and in two casings, and no address at all. *)
Lemma plain_unsubscribe_word_records_no_link_witness :
  let email :=
    EmailData.mk "1" "friend@example.com" "Question"
      "2024-01-01T00:00:00.000Z"
      "How do I Unsubscribe from the list? Reply with unsubscribe."
      [] in
  EmailResult.unsubscribeLink (classifyEmail email) = None
  /\ In "unsubscribe" (filter (keywordHit email) marketingKeywords)
  /\ marketingScore (scoreEmail email)
     = List.length (filter (keywordHit email) marketingKeywords)
       + (if marketingSender email then 2 else 0).
Proof.
  intros email. apply (plain_unsubscribe_word_records_no_link email).
  - apply includes_toLowerCase; reflexivity.
  - intros H. apply scoreEmail_link_found in H. now apply H.
Defined.

(** C7: the result carries a link exactly when the body holds a token
    of the link grammar, whatever the label: each label occurs with a
    link and without one. *)
Theorem unsubscribeLink_present_iff_token_in_body :
  (forall email,
      EmailResult.unsubscribeLink (classifyEmail email) <> None
      <-> Occurs UnsubscribeUrl (EmailData.body email))
  /\ (forall label present, exists email,
        EmailResult.classification (classifyEmail email) = label
        /\ isPresent (EmailResult.unsubscribeLink (classifyEmail email)) = present).
Proof.
  split.
  - intros email. rewrite classifyEmail_link. apply scoreEmail_link_found.
  - intros [] [].
    + exists (EmailData.mk "1" "a@b.c" "Sale" "d" "https://b.c/unsubscribe" []).
      split; reflexivity.
    + exists (EmailData.mk "1" "a@b.c" "Sale" "d" "Everything must go" []).
      split; reflexivity.
    + exists (EmailData.mk "1" "billing@b.c" "Invoice and receipt for your payment"
                "d" "Your account statement. https://b.c/unsubscribe" []).
      split; reflexivity.
    + exists (EmailData.mk "1" "a@b.c" "" "d" "" []).
      split; reflexivity.
Qed.

(** C8: [classifyEmail] returns a result for every email: it is labelled
    [marketing] or [important], carries the identifier, sender, subject
    and date of the email, one of the three actions and a reason. *)
Theorem classifyEmail_total (email : EmailData.t) :
  exists r,
    classifyEmail email = r
    /\ (EmailResult.classification r = marketing
        \/ EmailResult.classification r = important)
    /\ EmailResult.id r = EmailData.id email
    /\ EmailResult.from r = EmailData.from email
    /\ EmailResult.subject r = EmailData.subject email
    /\ EmailResult.date r = EmailData.date email
    /\ In (EmailResult.action r)
          [ "Unsubscribe available"; "Mark as spam or delete";
            "Keep and respond professionally if needed" ]
    /\ EmailResult.reason r <> "".
Proof.
  exists (classifyEmail email). unfold classifyEmail.
  cbn [EmailResult.classification EmailResult.id EmailResult.from EmailResult.subject
       EmailResult.date EmailResult.action EmailResult.reason
       EmailResult.unsubscribeLink].
  destruct (importantScore (scoreEmail email) <? marketingScore (scoreEmail email))%nat.
  - repeat split; auto; [|discriminate].
    destruct (Js.truthy _); [now left | right; now left].
  - repeat split; auto; [right; right; now left | discriminate].
Qed.

(** C10: two emails with the same sender, subject and body get the same
    label, action, reason and link, whatever their headers, identifiers
    and dates; each result carries the identifier, sender, subject and
    date of its own email. *)
Theorem classifyEmail_ignores_headers (e1 e2 : EmailData.t) :
  EmailData.from e1 = EmailData.from e2 ->
  EmailData.subject e1 = EmailData.subject e2 ->
  EmailData.body e1 = EmailData.body e2 ->
  EmailResult.classification (classifyEmail e1)
  = EmailResult.classification (classifyEmail e2)
  /\ EmailResult.action (classifyEmail e1) = EmailResult.action (classifyEmail e2)
  /\ EmailResult.reason (classifyEmail e1) = EmailResult.reason (classifyEmail e2)
  /\ EmailResult.unsubscribeLink (classifyEmail e1)
     = EmailResult.unsubscribeLink (classifyEmail e2)
  /\ (forall e, e = e1 \/ e = e2 ->
        EmailResult.id (classifyEmail e) = EmailData.id e
        /\ EmailResult.from (classifyEmail e) = EmailData.from e
        /\ EmailResult.subject (classifyEmail e) = EmailData.subject e
        /\ EmailResult.date (classifyEmail e) = EmailData.date e).
Proof.
  intros Hf Hs Hb.
  assert (E : scoreEmail e1 = scoreEmail e2)
    by (unfold scoreEmail; now rewrite Hf, Hs, Hb).
  unfold classifyEmail.
  cbn [EmailResult.classification EmailResult.id EmailResult.from EmailResult.subject
       EmailResult.date EmailResult.action EmailResult.reason
       EmailResult.unsubscribeLink].
  rewrite E. repeat split; reflexivity.
Qed.

(** Two emails that differ in identifier, date and headers. *)
Lemma classifyEmail_ignores_headers_witness :
  let e1 :=
    EmailData.mk "1" "noreply@deals.com" "Free shipping today"
      "2024-01-01T00:00:00.000Z" "See https://deals.com/unsubscribe"
      [] in
  let e2 :=
    EmailData.mk "2" "noreply@deals.com" "Free shipping today"
      "2024-02-02T00:00:00.000Z" "See https://deals.com/unsubscribe"
      [("List-Unsubscribe", "<mailto:leave@deals.com>"); ("X-Priority", "1")] in
  EmailResult.classification (classifyEmail e1)
  = EmailResult.classification (classifyEmail e2)
  /\ EmailResult.action (classifyEmail e1) = EmailResult.action (classifyEmail e2)
  /\ EmailResult.reason (classifyEmail e1) = EmailResult.reason (classifyEmail e2)
  /\ EmailResult.unsubscribeLink (classifyEmail e1)
     = EmailResult.unsubscribeLink (classifyEmail e2).
Proof.
  intros e1 e2.
  pose proof (classifyEmail_ignores_headers e1 e2 eq_refl eq_refl eq_refl) as H.
  split; [apply H|]. split; [apply H|]. split; apply H.
Defined.

(** What the six demo emails get, in order. *)
Example demoEmails_classified (dateAgo : Z -> string) :
  map (fun r => (EmailResult.classification r, EmailResult.action r,
                 isPresent (EmailResult.unsubscribeLink r)))
      (map classifyEmail (demoEmails dateAgo))
  = [ (marketing, "Unsubscribe available", true);
      (important, "Keep and respond professionally if needed", false);
      (marketing, "Unsubscribe available", true);
      (important, "Keep and respond professionally if needed", false);
      (marketing, "Mark as spam or delete", false);
      (important, "Keep and respond professionally if needed", false) ].
Proof. vm_compute. reflexivity. Qed.

(** A scheme directly followed by the word is no token: the pattern
    asks for at least one character between them. *)
Example scheme_then_word_is_no_link :
  exec true unsubscribePattern "go to http://unsubscribe now" = None
  /\ exec true unsubscribePattern "go to http://x/unsubscribe now"
     = Some "http://x/unsubscribe".
Proof. split; vm_compute; reflexivity. Qed.

(** ** The batch and the handler *)

Section BatchFacts.

Lemma filter_labels_length (l : list EmailResult.t) :
  List.length (filter (fun r => isMarketingLabel (EmailResult.classification r)) l)
  + List.length (filter (fun r => isImportantLabel (EmailResult.classification r)) l)
  = List.length l.
Proof.
  induction l as [|r l IH]; simpl; [reflexivity|].
  destruct (EmailResult.classification r); simpl; lia.
Qed.

Lemma filter_unsubscribable_le (l : list EmailResult.t) :
  List.length (filter unsubscribable l)
  <= List.length (filter (fun r => isMarketingLabel (EmailResult.classification r)) l).
Proof.
  unfold unsubscribable. induction l as [|r l IH]; simpl; [lia|].
  destruct (isMarketingLabel (EmailResult.classification r)); simpl;
    [destruct (Js.truthy _); simpl; lia | exact IH].
Qed.

Lemma filter_map_invariant {A : Type} (p : A -> bool) (f : A -> A) (l : list A) :
  (forall x, p (f x) = p x) ->
  List.length (filter p (map f l)) = List.length (filter p l).
Proof.
  intros H. induction l as [|x l IH]; simpl; [reflexivity|].
  rewrite H. destruct (p x); simpl; now rewrite IH.
Qed.

(** The body of the [forEach] of the handler. *)
Lemma rewrite_keeps_label_and_link (r : EmailResult.t) :
  let r' := if unsubscribable r
            then EmailResult.setAction "Successfully unsubscribed" r else r in
  EmailResult.classification r' = EmailResult.classification r
  /\ EmailResult.unsubscribeLink r' = EmailResult.unsubscribeLink r.
Proof. cbv zeta. destruct (unsubscribable r); split; reflexivity. Qed.

Lemma classifyBatch_results (emails : list EmailData.t) (autoUnsubscribe : bool) :
  Response.results (classifyBatch emails autoUnsubscribe)
  = map (fun email =>
           let r := classifyEmail email in
           if autoUnsubscribe && unsubscribable r
           then EmailResult.setAction "Successfully unsubscribed" r else r)
        emails.
Proof.
  unfold classifyBatch; cbn [Response.results].
  destruct autoUnsubscribe; cbn [andb]; [now rewrite map_map|].
  reflexivity.
Qed.

Lemma classifyEmail_unsubscribable (email : EmailData.t) :
  unsubscribable (classifyEmail email)
  = isMarketingLabel (EmailResult.classification (classifyEmail email))
    && isPresent (EmailResult.unsubscribeLink (classifyEmail email)).
Proof.
  unfold unsubscribable. now rewrite classifyEmail_link, scoreEmail_link_truthy.
Qed.

Lemma classifyEmail_action (email : EmailData.t) :
  EmailResult.action (classifyEmail email) <> "Successfully unsubscribed".
Proof.
  unfold classifyEmail; cbn [EmailResult.action].
  destruct (_ <? _)%nat; [destruct (Js.truthy _)|]; discriminate.
Qed.

Lemma generateDemoEmails_length (dateAgo : Z -> string) (count : Z) :
  List.length (generateDemoEmails dateAgo count) = Z.to_nat count.
Proof. unfold generateDemoEmails. now rewrite length_map, length_seq. Qed.

End BatchFacts.

(** C3: the statistics of a batch: [total] is the number of results,
    every result is labelled [marketing] or [important] and the two
    counts, which count the results so labelled, add up to [total], and
    [unsubscribed] is at most [marketing]. *)
Theorem batch_stats_invariants (emails : list EmailData.t) (autoUnsubscribe : bool) :
  let response := classifyBatch emails autoUnsubscribe in
  let stats := Response.stats response in
  let results := Response.results response in
  Stats.total stats = List.length results
  /\ Stats.marketing stats + Stats.important stats = Stats.total stats
  /\ Forall (fun r => EmailResult.classification r = marketing
                      \/ EmailResult.classification r = important) results
  /\ Stats.marketing stats
     = List.length
         (filter (fun r => isMarketingLabel (EmailResult.classification r)) results)
  /\ Stats.important stats
     = List.length
         (filter (fun r => isImportantLabel (EmailResult.classification r)) results)
  /\ Stats.unsubscribed stats <= Stats.marketing stats.
Proof.
  cbv zeta.
  assert (Hr : Response.results (classifyBatch emails autoUnsubscribe)
               = if autoUnsubscribe
                 then map (fun r => if unsubscribable r
                                    then EmailResult.setAction
                                           "Successfully unsubscribed" r
                                    else r)
                          (map classifyEmail emails)
                 else map classifyEmail emails) by reflexivity.
  assert (Hm : forall p : Classification -> bool,
             List.length (filter (fun r => p (EmailResult.classification r))
                            (Response.results (classifyBatch emails autoUnsubscribe)))
             = List.length (filter (fun r => p (EmailResult.classification r))
                              (map classifyEmail emails))).
  { intros p. rewrite Hr. destruct autoUnsubscribe; [|reflexivity].
    apply (filter_map_invariant (fun r => p (EmailResult.classification r))).
    intros r. now destruct (rewrite_keeps_label_and_link r) as [-> _]. }
  repeat split.
  - rewrite Hr. cbn [classifyBatch Response.stats Stats.total].
    destruct autoUnsubscribe; now rewrite ?length_map.
  - cbn [classifyBatch Response.stats Stats.total Stats.marketing Stats.important].
    apply filter_labels_length.
  - apply Forall_forall. intros r _. destruct (EmailResult.classification r); auto.
  - rewrite (Hm isMarketingLabel). reflexivity.
  - rewrite (Hm isImportantLabel). reflexivity.
  - cbn [classifyBatch Response.stats Stats.unsubscribed Stats.marketing].
    destruct autoUnsubscribe; [apply filter_unsubscribable_le | lia].
Qed.

(** C4: with [autoUnsubscribe], the results labelled [marketing] that
    carry a link, and no others, have the action "Successfully
    unsubscribed", every other field being what [classifyEmail] gave,
    and [unsubscribed] is their number; without it, [unsubscribed] is 0
    and the results are those of [classifyEmail]. *)
Theorem autoUnsubscribe_rewrites_marketing_with_link
  (emails : list EmailData.t) (autoUnsubscribe : bool) :
  let response := classifyBatch emails autoUnsubscribe in
  let target r :=
    isMarketingLabel (EmailResult.classification r)
    && isPresent (EmailResult.unsubscribeLink r) in
  Forall2
    (fun email r =>
       let r0 := classifyEmail email in
       r = (if autoUnsubscribe && target r0
            then EmailResult.setAction "Successfully unsubscribed" r0
            else r0)
       /\ (EmailResult.action r = "Successfully unsubscribed"
           <-> autoUnsubscribe && target r = true))
    emails (Response.results response)
  /\ Stats.unsubscribed (Response.stats response)
     = (if autoUnsubscribe
        then List.length (filter target (Response.results response))
        else 0)
  /\ (autoUnsubscribe = false ->
      Stats.unsubscribed (Response.stats response) = 0
      /\ Response.results response = map classifyEmail emails).
Proof.
  cbv zeta. split; [|split].
  - rewrite classifyBatch_results.
    induction emails as [|email emails IH]; cbn [map]; constructor; [|exact IH].
    cbv zeta. rewrite classifyEmail_unsubscribable. split; [reflexivity|].
    destruct (autoUnsubscribe && _) eqn:E.
    + cbn [EmailResult.setAction EmailResult.action EmailResult.classification
           EmailResult.unsubscribeLink].
      rewrite E. tauto.
    + rewrite E. split; [|discriminate].
      intros H. now apply classifyEmail_action in H.
  - destruct autoUnsubscribe; [|reflexivity].
    rewrite classifyBatch_results.
    cbn [classifyBatch Response.stats Stats.unsubscribed andb].
    rewrite <- (map_map classifyEmail
                  (fun r => if unsubscribable r
                            then EmailResult.setAction "Successfully unsubscribed" r
                            else r)).
    rewrite filter_map_invariant.
    + induction emails as [|email emails IH]; cbn [map filter]; [reflexivity|].
      rewrite classifyEmail_unsubscribable.
      destruct (_ && _); cbn [List.length]; now rewrite IH.
    + intros r. now destruct (rewrite_keeps_label_and_link r) as [-> ->].
  - intros ->. split; reflexivity.
Qed.

(** C9, at an input where it fails: for [maxEmails] "-5" the bound is
    -5 and no email is processed. *)
Lemma negative_maxEmails_processes_no_email :
  let config :=
    EmailConfig.mk "gmail" "me@example.com" "secret" "imap.gmail.com" "993"
      (Some "-5") false in
  let n := List.length (Response.results (POST (fun _ => "") config)) in
  maxEmails config = (-5)%Z /\ n = 0 /\ Z.of_nat n <> maxEmails config.
Proof. cbv zeta. repeat split. vm_compute. discriminate. Qed.

(** C9, amended: the number of emails processed is the bound computed
    from [maxEmails] when that bound is not negative, and zero
    otherwise; the bound is at most 100, so is the number, and both are
    50 when [maxEmails] is absent or [parseInt] finds no number in it. *)
Theorem batch_size_is_clamped_maxEmails
  (dateAgo : Z -> string) (config : EmailConfig.t) :
  let n := List.length (Response.results (POST dateAgo config)) in
  let parsed := Js.parseInt (Js.toStringValue (EmailConfig.maxEmails config)) in
  n = Z.to_nat (maxEmails config)
  /\ ((0 <= maxEmails config)%Z -> Z.of_nat n = maxEmails config)
  /\ ((maxEmails config < 0)%Z -> n = 0)
  /\ (maxEmails config <= 100)%Z
  /\ n <= 100
  /\ (parsed = None -> maxEmails config = 50%Z /\ n = 50)
  /\ (EmailConfig.maxEmails config = None -> maxEmails config = 50%Z /\ n = 50).
Proof.
  cbv zeta.
  assert (Hn : List.length (Response.results (POST dateAgo config))
               = Z.to_nat (maxEmails config)).
  { unfold POST. rewrite classifyBatch_results, length_map.
    apply generateDemoEmails_length. }
  assert (Hle : (maxEmails config <= 100)%Z) by (unfold maxEmails; lia).
  assert (Hnone : Js.parseInt (Js.toStringValue (EmailConfig.maxEmails config)) = None ->
                  maxEmails config = 50%Z
                  /\ List.length (Response.results (POST dateAgo config)) = 50).
  { intros H. rewrite Hn. unfold maxEmails. rewrite H. split; reflexivity. }
  split; [exact Hn|].
  split; [intros H; rewrite Hn; lia|].
  split; [intros H; rewrite Hn; lia|].
  split; [exact Hle|].
  split; [rewrite Hn; lia|].
  split; [exact Hnone|].
  intros H. apply Hnone. rewrite H. reflexivity.
Qed.

(** ** More on the link *)

Section LinkFacts.

Lemma NoSpace_toLowerCase (s : string) : NoSpace (Js.toLowerCase s) <-> NoSpace s.
Proof.
  induction s as [|a s IH]; simpl; [tauto|].
  rewrite isWhiteSpace_toLowerChar. tauto.
Qed.

Lemma UnsubscribeUrl_NoSpace (t : string) : UnsubscribeUrl t -> NoSpace t.
Proof.
  intros (scheme & run1 & w & run2 & -> & Hs & _ & H1 & Hw & H2).
  rewrite !NoSpace_app. repeat split; try assumption.
  - apply NoSpace_toLowerCase. destruct Hs as [-> | ->]; simpl; tauto.
  - apply NoSpace_toLowerCase. rewrite Hw. simpl. tauto.
Qed.

Lemma UnsubscribeUrl_length (t : string) : UnsubscribeUrl t -> 19 <= length t.
Proof.
  intros (scheme & run1 & w & run2 & -> & Hs & Hne & _ & Hw & _).
  rewrite !str_app_length.
  assert (7 <= length scheme)
    by (rewrite <- toLowerCase_length; destruct Hs as [-> | ->]; simpl; lia).
  assert (11 = length w) by (rewrite <- toLowerCase_length, Hw; reflexivity).
  destruct run1; [contradiction | simpl; lia].
Qed.

(** A token in lower case shows its scheme and the word as they are. *)
Lemma UnsubscribeUrl_lowercase (t : string) :
  UnsubscribeUrl t -> Js.toLowerCase t = t ->
  (prefix "http://" t = true \/ prefix "https://" t = true)
  /\ Js.includes t "unsubscribe" = true.
Proof.
  intros (scheme & run1 & w & run2 & -> & Hs & _ & _ & Hw & _) Hl.
  rewrite !toLowerCase_app, Hw in Hl. rewrite <- Hl. split.
  - destruct Hs as [-> | ->]; [left | right]; apply prefix_spec; eauto.
  - apply includes_spec.
    exists (Js.toLowerCase scheme ++ Js.toLowerCase run1), "unsubscribe",
           (Js.toLowerCase run2).
    now rewrite !str_app_assoc.
Qed.

Lemma repeatMatcher_Some (m : Matcher) (n : nat) (x : string) :
  repeatMatcher m n x Some <> None.
Proof.
  destruct n as [|n]; simpl; [discriminate|].
  destruct (m x _); discriminate.
Qed.

(** The greedy run of [[^\s]*] stops only at the end of the text or
    at a white-space character. *)
Lemma star_NotSpace_end (ic : bool) (n : nat) (x rest : string) :
  length x <= n ->
  repeatMatcher (compile ic NotSpace) n x Some = Some rest -> AtRunEnd rest.
Proof.
  assert (Hcons : forall a y c,
             compile ic NotSpace (String a y) c
             = if Js.isWhiteSpace a then None else c y) by reflexivity.
  revert x. induction n as [|n IH]; intros x Hn; cbn [repeatMatcher].
  - destruct x; [|simpl in Hn; lia]. intros [= H]. subst rest. exact I.
  - destruct x as [|a y]; [intros [= H]; subst rest; exact I|].
    rewrite Hcons.
    destruct (Js.isWhiteSpace a) eqn:Ea; [intros [= H]; subst rest; exact Ea|].
    replace (length y <? length (String a y))%nat with true
      by (symmetry; apply Nat.ltb_lt; simpl; lia).
    destruct (repeatMatcher (compile ic NotSpace) n y Some) as [z|] eqn:E.
    + intros [= H]. subst z. apply (IH y); [simpl in Hn; lia | exact E].
    + now apply repeatMatcher_Some in E.
Qed.

Lemma compile_Seq (ic : bool) (r1 r2 : regex) (x : string) (c : Continuation) :
  compile ic (Seq r1 r2) x c = compile ic r1 x (fun y => compile ic r2 y c).
Proof. reflexivity. Qed.

Lemma unsubscribePattern_end (x rest : string) :
  compile true unsubscribePattern x Some = Some rest -> AtRunEnd rest.
Proof.
  unfold unsubscribePattern. intros H.
  do 5 (rewrite compile_Seq in H; apply compile_sound in H;
        destruct H as (? & ? & _ & _ & H); cbv beta in H).
  match type of H with compile _ _ ?y _ = _ =>
    apply (star_NotSpace_end true (length y) y); [lia | exact H] end.
Qed.

(** Where [exec] finds its match: at the least index where a word of
    the pattern starts, leaving what the matcher left. *)
Lemma exec_position (ic : bool) (r : regex) (s t : string) :
  exec ic r s = Some t ->
  exists pre rest,
    s = pre ++ t ++ rest
    /\ compile ic r (t ++ rest) Some = Some rest
    /\ forall pre' t' post', s = pre' ++ t' ++ post' -> Lang ic r t' ->
         length pre <= length pre'.
Proof.
  revert t. induction s as [|a s IH]; intros t; cbn [exec].
  - destruct (compile ic r "" Some) as [rest|] eqn:E; [|discriminate].
    intros [= <-]. pose proof (compile_Some ic r _ _ E) as [E' _].
    set (t := substring 0 (length "" - length rest) "") in *.
    exists "", rest. split; [exact E'|]. split;
      [change (compile ic r (t ++ rest) Some = Some rest); now rewrite <- E'
      | simpl; lia].
  - destruct (compile ic r (String a s) Some) as [rest|] eqn:E.
    + intros [= <-]. pose proof (compile_Some ic r _ _ E) as [E' _].
      set (t := substring 0 (length (String a s) - length rest) (String a s)) in *.
      exists "", rest. split; [exact E'|]. split;
      [change (compile ic r (t ++ rest) Some = Some rest); now rewrite <- E'
      | simpl; lia].
    + intros H. apply IH in H. destruct H as (pre & rest & -> & Hc & Hmin).
      exists (String a pre), rest. repeat split; [exact Hc|].
      intros pre' t' post' E' L'. destruct pre' as [|b pre']; simpl in E'.
      * exfalso. rewrite E' in E. now apply compile_None in E.
      * injection E' as _ E'. simpl. apply le_n_S. eapply Hmin; eassumption.
Qed.

End LinkFacts.

(** X1: a recorded link starts with [http://] or [https://], holds the
    word "unsubscribe", has no white space and no upper-case letter,
    and is at least 19 characters long. *)
Theorem unsubscribeLink_shape (email : EmailData.t) (link : string) :
  EmailResult.unsubscribeLink (classifyEmail email) = Some link ->
  (prefix "http://" link = true \/ prefix "https://" link = true)
  /\ Js.includes link "unsubscribe" = true
  /\ NoSpace link
  /\ Js.toLowerCase link = link
  /\ 19 <= length link.
Proof.
  rewrite classifyEmail_link. intros H.
  assert (Hl : Js.toLowerCase link = link).
  { rewrite scoreEmail_link_lowercased in H.
    destruct (exec true unsubscribePattern (EmailData.body email)) as [t|];
      [|discriminate].
    injection H as <-. apply toLowerCase_idem. }
  rewrite scoreEmail_link in H.
  apply exec_sound in H. destruct H as (pre & post & E & L & _).
  apply Lang_unsubscribePattern in L.
  destruct (UnsubscribeUrl_lowercase link L Hl) as [Hp Hi].
  repeat split; try assumption.
  - now apply UnsubscribeUrl_NoSpace.
  - now apply UnsubscribeUrl_length.
Qed.

Lemma unsubscribeLink_shape_witness :
  let email :=
    EmailData.mk "3" "noreply@deals.com" "Today Only" "2024-01-01T00:00:00.000Z"
      "Unsubscribe here: HTTPS://Deals.com/Unsubscribe now" [] in
  let link := "https://deals.com/unsubscribe" in
  (prefix "http://" link = true \/ prefix "https://" link = true)
  /\ Js.includes link "unsubscribe" = true
  /\ NoSpace link
  /\ Js.toLowerCase link = link
  /\ 19 <= length link.
Proof.
  intros email link. apply (unsubscribeLink_shape email link). reflexivity.
Defined.

(** X2: the recorded link is the lower-cased form of a token of the
    body that runs up to the next white-space character or to the end
    of the body, and no token of the body starts before it. *)
Theorem unsubscribeLink_position (email : EmailData.t) (link : string) :
  EmailResult.unsubscribeLink (classifyEmail email) = Some link ->
  exists pre t post,
    EmailData.body email = pre ++ t ++ post
    /\ link = Js.toLowerCase t
    /\ UnsubscribeUrl t
    /\ AtRunEnd post
    /\ forall pre' t' post',
         EmailData.body email = pre' ++ t' ++ post' -> UnsubscribeUrl t' ->
         length pre <= length pre'.
Proof.
  rewrite classifyEmail_link, scoreEmail_link_lowercased.
  destruct (exec true unsubscribePattern (EmailData.body email)) as [t|] eqn:E;
    [|discriminate].
  intros [= <-]. apply exec_position in E.
  destruct E as (pre & rest & E & Hc & Hmin).
  exists pre, t, rest. repeat split.
  - exact E.
  - apply Lang_unsubscribePattern.
    apply compile_Some in Hc. destruct Hc as [_ L].
    now rewrite substring_head in L.
  - now apply unsubscribePattern_end in Hc.
  - intros pre' t' post' E' U. apply (Hmin pre' t' post' E').
    now apply Lang_unsubscribePattern.
Qed.

Lemma unsubscribeLink_position_witness :
  let email :=
    EmailData.mk "3" "noreply@deals.com" "Today Only" "2024-01-01T00:00:00.000Z"
      "Unsubscribe here: HTTPS://Deals.com/Unsubscribe now" [] in
  exists pre t post,
    EmailData.body email = pre ++ t ++ post
    /\ "https://deals.com/unsubscribe" = Js.toLowerCase t
    /\ UnsubscribeUrl t
    /\ AtRunEnd post
    /\ forall pre' t' post',
         EmailData.body email = pre' ++ t' ++ post' -> UnsubscribeUrl t' ->
         length pre <= length pre'.
Proof.
  intros email.
  apply (unsubscribeLink_position email "https://deals.com/unsubscribe").
  reflexivity.
Defined.

(** ** More on the scores *)

Section ScoreFacts.

(** A keyword that contains another brings it along. *)
Lemma CISubstring_within (k k' s : string) :
  Occurs (eq (Js.toLowerCase k')) (Js.toLowerCase k) ->
  CISubstring k s -> CISubstring k' s.
Proof.
  intros (a & m & b & Ek & <-) (pre & t & post & -> & Et).
  rewrite <- Et in Ek.
  apply toLowerCase_app_inv in Ek. destruct Ek as (a' & r & -> & _ & Ek).
  apply toLowerCase_app_inv in Ek. destruct Ek as (m' & b' & -> & Em & _).
  exists (pre ++ a'), m', (b' ++ post). split; [|exact Em].
  now rewrite !str_app_assoc.
Qed.

Lemma UnsubscribeUrl_word (s : string) :
  Occurs UnsubscribeUrl s -> CISubstring "unsubscribe" s.
Proof.
  intros (pre & t & post & -> & scheme & run1 & w & run2 & -> & _ & _ & _ & Hw & _).
  exists (pre ++ scheme ++ run1), w, (run2 ++ post). split; [|exact Hw].
  now rewrite !str_app_assoc.
Qed.

Lemma filter_length_le {A : Type} (p : A -> bool) (l : list A) :
  List.length (filter p l) <= List.length l.
Proof.
  induction l as [|x l IH]; simpl; [lia|]. destruct (p x); simpl; lia.
Qed.

Lemma keywordHit_toLowerCase (e1 e2 : EmailData.t) (kw : string) :
  Js.toLowerCase (EmailData.subject e1) = Js.toLowerCase (EmailData.subject e2) ->
  Js.toLowerCase (EmailData.body e1) = Js.toLowerCase (EmailData.body e2) ->
  keywordHit e1 kw = keywordHit e2 kw.
Proof. unfold keywordHit. now intros -> ->. Qed.

Lemma classifyEmail_classification (email : EmailData.t) :
  EmailResult.classification (classifyEmail email)
  = if (importantScore (scoreEmail email) <? marketingScore (scoreEmail email))%nat
    then marketing else important.
Proof. reflexivity. Qed.

Lemma classifyEmail_action_eq (email : EmailData.t) :
  EmailResult.action (classifyEmail email)
  = if (importantScore (scoreEmail email) <? marketingScore (scoreEmail email))%nat
    then if isPresent (unsubscribeLink (scoreEmail email))
         then "Unsubscribe available" else "Mark as spam or delete"
    else "Keep and respond professionally if needed".
Proof.
  rewrite <- scoreEmail_link_truthy. reflexivity.
Qed.

End ScoreFacts.

(** X3: an email with a recorded link has a marketing score of at least
    5, the link bonus and the entries "unsubscribe" and "subscribe";
    with an important score of 4 or less it is labelled [marketing]
    and its action is "Unsubscribe available". *)
Theorem link_gives_five_marketing_points (email : EmailData.t) :
  EmailResult.unsubscribeLink (classifyEmail email) <> None ->
  keywordHit email "unsubscribe" = true
  /\ keywordHit email "subscribe" = true
  /\ 5 <= marketingScore (scoreEmail email)
  /\ (importantScore (scoreEmail email) <= 4 ->
      EmailResult.classification (classifyEmail email) = marketing
      /\ EmailResult.action (classifyEmail email) = "Unsubscribe available").
Proof.
  rewrite classifyEmail_link. intros Hl.
  assert (Hu : CISubstring "unsubscribe" (EmailData.body email))
    by (now apply UnsubscribeUrl_word, scoreEmail_link_found).
  assert (Hs : CISubstring "subscribe" (EmailData.body email)).
  { apply (CISubstring_within "unsubscribe"); [|exact Hu].
    exists "un", "subscribe", "". split; reflexivity. }
  assert (H1 : keywordHit email "unsubscribe" = true)
    by (apply keywordHit_spec; [reflexivity | now right]).
  assert (H2 : keywordHit email "subscribe" = true)
    by (apply keywordHit_spec; [reflexivity | now right]).
  assert (H5 : 5 <= marketingScore (scoreEmail email)).
  { rewrite scoreEmail_marketingScore.
    destruct (unsubscribeLink (scoreEmail email)); [|contradiction].
    cbn [isPresent].
    assert (2 <= List.length (filter (keywordHit email) marketingKeywords)); [|lia].
    apply (NoDup_incl_length (l := ["unsubscribe"; "subscribe"])).
    - repeat constructor; simpl; intuition discriminate.
    - intros kw [<- | [<- | []]]; apply filter_In; split; try assumption;
        unfold marketingKeywords; simpl; tauto. }
  repeat split; try assumption.
  - rewrite classifyEmail_classification.
    destruct (Nat.ltb_spec (importantScore (scoreEmail email))
                           (marketingScore (scoreEmail email))); [reflexivity | lia].
  - rewrite classifyEmail_action_eq.
    destruct (Nat.ltb_spec (importantScore (scoreEmail email))
                           (marketingScore (scoreEmail email))); [|lia].
    destruct (unsubscribeLink (scoreEmail email)); [reflexivity | contradiction].
Qed.

Lemma link_gives_five_marketing_points_witness :
  let email :=
    EmailData.mk "9" "friend@example.com" "Hello" "2024-01-01T00:00:00.000Z"
      "See http://example.com/unsubscribe" [] in
  keywordHit email "unsubscribe" = true
  /\ keywordHit email "subscribe" = true
  /\ 5 <= marketingScore (scoreEmail email)
  /\ (importantScore (scoreEmail email) <= 4 ->
      EmailResult.classification (classifyEmail email) = marketing
      /\ EmailResult.action (classifyEmail email) = "Unsubscribe available").
Proof.
  intros email. apply (link_gives_five_marketing_points email). discriminate.
Defined.

(** X4: the marketing score is at most 26 and the important score at
    most 23, and one email reaches both bounds. *)
Theorem scores_bounded :
  (forall email,
      marketingScore (scoreEmail email) <= 26
      /\ importantScore (scoreEmail email) <= 23)
  /\ exists email,
       marketingScore (scoreEmail email) = 26
       /\ importantScore (scoreEmail email) = 23.
Proof.
  split.
  - intros email.
    rewrite scoreEmail_marketingScore, scoreEmail_importantScore.
    pose proof (filter_length_le (keywordHit email) marketingKeywords) as Hm.
    pose proof (filter_length_le (keywordHit email) importantKeywords) as Hi.
    change (List.length marketingKeywords) with 21 in Hm.
    change (List.length importantKeywords) with 21 in Hi.
    destruct (marketingSender email), (importantSender email),
      (isPresent (unsubscribeLink (scoreEmail email))); lia.
  - exists (EmailData.mk "1" "noreply@billing.example.com"
              (String.concat " " (marketingKeywords ++ importantKeywords)%list)
              "2024-01-01T00:00:00.000Z" "https://example.com/unsubscribe" []).
    split; vm_compute; reflexivity.
Qed.

(** X5: the case of letters does not matter: two emails whose sender,
    subject and body agree once lower-cased get the same label,
    action, reason and link. *)
Theorem classifyEmail_ignores_case (e1 e2 : EmailData.t) :
  Js.toLowerCase (EmailData.from e1) = Js.toLowerCase (EmailData.from e2) ->
  Js.toLowerCase (EmailData.subject e1) = Js.toLowerCase (EmailData.subject e2) ->
  Js.toLowerCase (EmailData.body e1) = Js.toLowerCase (EmailData.body e2) ->
  EmailResult.classification (classifyEmail e1)
  = EmailResult.classification (classifyEmail e2)
  /\ EmailResult.action (classifyEmail e1) = EmailResult.action (classifyEmail e2)
  /\ EmailResult.reason (classifyEmail e1) = EmailResult.reason (classifyEmail e2)
  /\ EmailResult.unsubscribeLink (classifyEmail e1)
     = EmailResult.unsubscribeLink (classifyEmail e2).
Proof.
  intros Hf Hs Hb.
  assert (E : scoreEmail e1 = scoreEmail e2)
    by (unfold scoreEmail; now rewrite Hf, Hs, Hb).
  unfold classifyEmail.
  cbn [EmailResult.classification EmailResult.action EmailResult.reason
       EmailResult.unsubscribeLink].
  rewrite E. repeat split; reflexivity.
Qed.

Lemma classifyEmail_ignores_case_witness :
  let e1 :=
    EmailData.mk "1" "NoReply@Deals.com" "FREE SHIPPING TODAY"
      "2024-01-01T00:00:00.000Z" "Leave: HTTPS://Deals.com/Unsubscribe" [] in
  let e2 :=
    EmailData.mk "1" "noreply@deals.com" "Free shipping today"
      "2024-01-01T00:00:00.000Z" "leave: https://deals.com/unsubscribe" [] in
  EmailResult.classification (classifyEmail e1)
  = EmailResult.classification (classifyEmail e2)
  /\ EmailResult.action (classifyEmail e1) = EmailResult.action (classifyEmail e2)
  /\ EmailResult.reason (classifyEmail e1) = EmailResult.reason (classifyEmail e2)
  /\ EmailResult.unsubscribeLink (classifyEmail e1)
     = EmailResult.unsubscribeLink (classifyEmail e2).
Proof.
  intros e1 e2.
  apply (classifyEmail_ignores_case e1 e2); reflexivity.
Defined.

(** X6: the action tells the label and whether a link was recorded, and
    the reason shows the larger of the two scores. *)
Theorem action_and_reason_follow_scores (email : EmailData.t) :
  let r := classifyEmail email in
  let s := scoreEmail email in
  (EmailResult.action r = "Unsubscribe available"
   <-> EmailResult.classification r = marketing
       /\ EmailResult.unsubscribeLink r <> None)
  /\ (EmailResult.action r = "Mark as spam or delete"
      <-> EmailResult.classification r = marketing
          /\ EmailResult.unsubscribeLink r = None)
  /\ (EmailResult.action r = "Keep and respond professionally if needed"
      <-> EmailResult.classification r = important)
  /\ EmailResult.reason r
     = (match EmailResult.classification r with
        | marketing => "Marketing email detected (score: "
        | important => "Important email detected (score: "
        end)
       ++ Js.numberToString (Nat.max (marketingScore s) (importantScore s))
       ++ (match EmailResult.classification r with
           | marketing => "). Contains promotional content."
           | important => "). Requires attention."
           end).
Proof.
  cbv zeta.
  rewrite classifyEmail_action_eq, classifyEmail_classification, classifyEmail_link.
  unfold classifyEmail; cbn [EmailResult.reason].
  destruct (Nat.ltb_spec (importantScore (scoreEmail email))
                         (marketingScore (scoreEmail email))) as [Hlt | Hge].
  - rewrite Nat.max_l by lia.
    destruct (unsubscribeLink (scoreEmail email)); cbn [isPresent];
      repeat split; try reflexivity; try discriminate;
      intros H; try (destruct H as [_ H]); try discriminate; try contradiction.
  - rewrite Nat.max_r by lia.
    repeat split; try reflexivity; try discriminate;
      intros H; try (destruct H as [H _]); discriminate.
Qed.

(** X7: an email with empty subject and body is judged on its sender
    alone: it has no link, each score is the bonus of its sender
    patterns, and it is [marketing] exactly when the sender matches a
    marketing pattern and no important one. *)
Theorem empty_email_judged_by_sender (email : EmailData.t) :
  EmailData.subject email = "" ->
  EmailData.body email = "" ->
  EmailResult.unsubscribeLink (classifyEmail email) = None
  /\ marketingScore (scoreEmail email) = (if marketingSender email then 2 else 0)
  /\ importantScore (scoreEmail email) = (if importantSender email then 2 else 0)
  /\ (EmailResult.classification (classifyEmail email) = marketing
      <-> marketingSender email = true /\ importantSender email = false).
Proof.
  intros Hs Hb.
  assert (Hl : unsubscribeLink (scoreEmail email) = None)
    by (rewrite scoreEmail_link, Hb; reflexivity).
  assert (Hk : forall kws, Forall (fun kw => kw <> "") kws ->
                 filter (keywordHit email) kws = []).
  { intros kws H. induction H as [|kw kws Hkw _ IH]; [reflexivity|].
    cbn [filter]. rewrite IH. unfold keywordHit. rewrite Hs, Hb.
    destruct kw; [contradiction | reflexivity]. }
  assert (Hm : marketingScore (scoreEmail email)
               = if marketingSender email then 2 else 0).
  { rewrite scoreEmail_marketingScore, Hl, Hk; [cbn; lia|].
    repeat (apply Forall_cons; [discriminate|]). apply Forall_nil. }
  assert (Hi : importantScore (scoreEmail email)
               = if importantSender email then 2 else 0).
  { rewrite scoreEmail_importantScore, Hk; [cbn; lia|].
    repeat (apply Forall_cons; [discriminate|]). apply Forall_nil. }
  rewrite classifyEmail_link, classifyEmail_classification, Hm, Hi.
  split; [exact Hl|]. split; [reflexivity|]. split; [reflexivity|].
  destruct (marketingSender email), (importantSender email); cbn;
    split; try tauto; try discriminate; intros [? ?]; discriminate.
Qed.

Lemma empty_email_judged_by_sender_witness :
  let email :=
    EmailData.mk "1" "noreply@example.com" "" "2024-01-01T00:00:00.000Z" "" [] in
  EmailResult.unsubscribeLink (classifyEmail email) = None
  /\ marketingScore (scoreEmail email) = (if marketingSender email then 2 else 0)
  /\ importantScore (scoreEmail email) = (if importantSender email then 2 else 0)
  /\ (EmailResult.classification (classifyEmail email) = marketing
      <-> marketingSender email = true /\ importantSender email = false).
Proof.
  intros email. apply (empty_email_judged_by_sender email); reflexivity.
Defined.

(** ** Reading the batch size *)

Section ParseIntFacts.

Lemma digitsValue_string_of_uint (d : Decimal.uint) (a : N) :
  Js.digitsValue 10 (NilEmpty.string_of_uint d) (Some a)
  = Some (N.of_nat (Nat.of_uint_acc d (N.to_nat a))).
Proof.
  revert a. induction d; intros a; cbn [NilEmpty.string_of_uint Nat.of_uint_acc];
    [cbn [Js.digitsValue]; now rewrite N2Nat.id | ..];
    (match goal with
     | |- Js.digitsValue 10 (String ?c ?s) (Some a) = _ =>
         let k := eval vm_compute in (Js.codeUnit c - 48)%N in
         change (Js.digitsValue 10 (String c s) (Some a))
           with (Js.digitsValue 10 s (Some (a * 10 + k)%N))
     end;
     rewrite IHd; do 3 f_equal; rewrite Nat.tail_mul_spec; lia).
Qed.

(** The digits of a number, read after an optional sign was removed. *)
Lemma magnitude_string_of_uint (d : Decimal.uint) :
  (let (R, s) := Js.stripHexPrefix (NilZero.string_of_uint d) in
   Js.digitsValue R s None)
  = Some (N.of_nat (Nat.of_uint d)).
Proof.
  assert (Hstart : forall c s k,
    Js.digitValue c = Some k -> (k <? 10)%N = true ->
    Js.digitsValue 10 (String c s) None = Js.digitsValue 10 s (Some k)).
  { intros c s k Hc Hk. cbn [Js.digitsValue]. now rewrite Hc, Hk. }
  unfold Nat.of_uint.
  destruct d; try reflexivity;
    try (cbn [NilZero.string_of_uint NilEmpty.string_of_uint Js.stripHexPrefix];
         erewrite Hstart by reflexivity;
         rewrite digitsValue_string_of_uint; reflexivity).
  cbn [NilZero.string_of_uint NilEmpty.string_of_uint].
  destruct d; try reflexivity;
    (cbn [NilEmpty.string_of_uint Js.stripHexPrefix];
     erewrite Hstart by reflexivity;
     match goal with
     | |- Js.digitsValue 10 (String ?c ?s) (Some ?a) = _ =>
         let k := eval vm_compute in (Js.codeUnit c - 48)%N in
         change (Js.digitsValue 10 (String c s) (Some a))
           with (Js.digitsValue 10 s (Some k))
     end;
     rewrite digitsValue_string_of_uint; reflexivity).
Qed.

Lemma string_of_uint_head (d : Decimal.uint) :
  exists c s, NilZero.string_of_uint d = String c s
              /\ Js.isWhiteSpace c = false
              /\ Js.stripSign (String c s) = (false, String c s).
Proof.
  destruct d; cbn [NilZero.string_of_uint NilEmpty.string_of_uint];
    eexists; eexists; repeat split.
Qed.

(** [parseInt] reads back what the rendering of a number wrote. *)
Lemma parseInt_numberToString (n : nat) :
  Js.parseInt (Js.numberToString n) = Some (Z.of_nat n).
Proof.
  unfold Js.numberToString, Js.parseInt.
  pose proof (magnitude_string_of_uint (Nat.to_uint n)) as Hm.
  destruct (string_of_uint_head (Nat.to_uint n)) as (c & s & E & Hc & Hs).
  rewrite E in *. cbn [Js.trimStart]. rewrite Hc, Hs. cbv beta iota.
  destruct (Js.stripHexPrefix (String c s)) as [R s'].
  rewrite Hm, Unsigned.of_to. now rewrite nat_N_Z.
Qed.

Lemma parseInt_minus_numberToString (n : nat) :
  Js.parseInt ("-" ++ Js.numberToString n) = Some (- Z.of_nat n)%Z.
Proof.
  unfold Js.numberToString, Js.parseInt.
  pose proof (magnitude_string_of_uint (Nat.to_uint n)) as Hm.
  change (Js.trimStart ("-" ++ ?s)) with (String "-" s).
  change (Js.stripSign (String "-" ?s)) with (true, s). cbv beta iota.
  destruct (Js.stripHexPrefix (NilZero.string_of_uint (Nat.to_uint n))) as [R s'].
  rewrite Hm, Unsigned.of_to. now rewrite nat_N_Z.
Qed.

Lemma numberToString_inj (n m : nat) :
  Js.numberToString n = Js.numberToString m -> n = m.
Proof.
  intros H. apply (f_equal Js.parseInt) in H.
  rewrite !parseInt_numberToString in H. injection H as H. lia.
Qed.

End ParseIntFacts.

(** ** More on the batch *)

Section MoreBatchFacts.

Lemma filter_map_length {A B : Type} (p : B -> bool) (f : A -> B) (l : list A) :
  List.length (filter p (map f l)) = List.length (filter (fun x => p (f x)) l).
Proof.
  induction l as [|x l IH]; simpl; [reflexivity|].
  destruct (p (f x)); simpl; now rewrite IH.
Qed.

Lemma classifyBatch_stats (emails : list EmailData.t) (autoUnsubscribe : bool) :
  Response.stats (classifyBatch emails autoUnsubscribe)
  = Stats.mk
      (List.length emails)
      (List.length
         (filter (fun e => isMarketingLabel
                             (EmailResult.classification (classifyEmail e))) emails))
      (List.length
         (filter (fun e => isImportantLabel
                             (EmailResult.classification (classifyEmail e))) emails))
      (if autoUnsubscribe
       then List.length (filter (fun e => unsubscribable (classifyEmail e)) emails)
       else 0).
Proof.
  unfold classifyBatch; cbn [Response.stats].
  now rewrite length_map, !filter_map_length.
Qed.

Lemma scoreEmail_ext (e1 e2 : EmailData.t) :
  EmailData.from e1 = EmailData.from e2 ->
  EmailData.subject e1 = EmailData.subject e2 ->
  EmailData.body e1 = EmailData.body e2 ->
  scoreEmail e1 = scoreEmail e2.
Proof. intros Hf Hs Hb. unfold scoreEmail. now rewrite Hf, Hs, Hb. Qed.

End MoreBatchFacts.

(** X8: whatever the flag, the results follow the emails in order:
    result [i] carries the identifier, sender, subject and date of
    email [i] and the label, reason and link [classifyEmail] gives it. *)
Theorem classifyBatch_keeps_order (emails : list EmailData.t) (autoUnsubscribe : bool) :
  let results := Response.results (classifyBatch emails autoUnsubscribe) in
  map EmailResult.id results = map EmailData.id emails
  /\ map EmailResult.from results = map EmailData.from emails
  /\ map EmailResult.subject results = map EmailData.subject emails
  /\ map EmailResult.date results = map EmailData.date emails
  /\ map EmailResult.classification results
     = map (fun e => EmailResult.classification (classifyEmail e)) emails
  /\ map EmailResult.reason results
     = map (fun e => EmailResult.reason (classifyEmail e)) emails
  /\ map EmailResult.unsubscribeLink results
     = map (fun e => EmailResult.unsubscribeLink (classifyEmail e)) emails.
Proof.
  cbv zeta. rewrite classifyBatch_results, !map_map.
  repeat split; apply map_ext; intros e; cbv zeta;
    destruct (autoUnsubscribe && unsubscribable (classifyEmail e)); reflexivity.
Qed.

(** X9: a batch is classified piece by piece: the results of two
    batches put end to end are the results of the first followed by
    those of the second, and each count is the sum of the two counts. *)
Theorem classifyBatch_app (e1 e2 : list EmailData.t) (autoUnsubscribe : bool) :
  let r := classifyBatch (e1 ++ e2) autoUnsubscribe in
  let r1 := classifyBatch e1 autoUnsubscribe in
  let r2 := classifyBatch e2 autoUnsubscribe in
  Response.results r = (Response.results r1 ++ Response.results r2)%list
  /\ Stats.total (Response.stats r)
     = Stats.total (Response.stats r1) + Stats.total (Response.stats r2)
  /\ Stats.marketing (Response.stats r)
     = Stats.marketing (Response.stats r1) + Stats.marketing (Response.stats r2)
  /\ Stats.important (Response.stats r)
     = Stats.important (Response.stats r1) + Stats.important (Response.stats r2)
  /\ Stats.unsubscribed (Response.stats r)
     = Stats.unsubscribed (Response.stats r1) + Stats.unsubscribed (Response.stats r2).
Proof.
  cbv zeta. rewrite !classifyBatch_results, !classifyBatch_stats.
  cbn [Stats.total Stats.marketing Stats.important Stats.unsubscribed].
  rewrite map_app, !filter_app, !length_app.
  repeat split. destruct autoUnsubscribe; reflexivity.
Qed.

(** X10: the flag changes nothing but actions and the [unsubscribed]
    count: with and without it the results agree once their actions
    are blanked, and so do the three other counts. *)
Theorem autoUnsubscribe_changes_only_actions (emails : list EmailData.t) :
  let on := classifyBatch emails true in
  let off := classifyBatch emails false in
  map (EmailResult.setAction "") (Response.results on)
  = map (EmailResult.setAction "") (Response.results off)
  /\ Stats.total (Response.stats on) = Stats.total (Response.stats off)
  /\ Stats.marketing (Response.stats on) = Stats.marketing (Response.stats off)
  /\ Stats.important (Response.stats on) = Stats.important (Response.stats off)
  /\ Stats.unsubscribed (Response.stats off) = 0.
Proof.
  cbv zeta. rewrite !classifyBatch_results, !classifyBatch_stats, !map_map.
  repeat split. apply map_ext. intros e. cbv zeta. cbn [andb].
  destruct (unsubscribable (classifyEmail e)); reflexivity.
Qed.

(** ** More on the demo data and the handler *)

Section DemoFacts.

Variable dateAgo : Z -> string.

Lemma even_mod_6 (i : nat) : Nat.even (i mod 6) = Nat.even i.
Proof.
  rewrite (Nat.div_mod_eq i 6) at 2.
  rewrite Nat.even_add, Nat.even_mul.
  now destruct (Nat.even (i mod 6)).
Qed.

Lemma demoEmail_scores (i : nat) :
  scoreEmail (demoEmail dateAgo i)
  = scoreEmail (nth (i mod 6) (demoEmails dateAgo) (EmailData.mk "" "" "" "" "" [])).
Proof. apply scoreEmail_ext; reflexivity. Qed.

(** The templates alternate: marketing at the even places, and a link
    in the first and the third. *)
Lemma demoEmail_classified (i : nat) :
  EmailResult.classification (classifyEmail (demoEmail dateAgo i))
  = (if Nat.even i then marketing else important)
  /\ isPresent (EmailResult.unsubscribeLink (classifyEmail (demoEmail dateAgo i)))
     = ((i mod 6 =? 0) || (i mod 6 =? 2))%nat.
Proof.
  rewrite classifyEmail_classification, classifyEmail_link, demoEmail_scores.
  rewrite <- (even_mod_6 i).
  pose proof (Nat.mod_upper_bound i 6 ltac:(discriminate)) as Hlt.
  destruct (i mod 6) as [|[|[|[|[|[|k]]]]]]; try lia; split; vm_compute; reflexivity.
Qed.

Lemma count_seq_step (p : nat -> bool) (n : nat) :
  List.length (filter p (seq 0 (S n)))
  = List.length (filter p (seq 0 n)) + (if p n then 1 else 0).
Proof.
  rewrite seq_S, filter_app, length_app. cbn [filter Nat.add].
  destruct (p n); reflexivity.
Qed.

Lemma count_even (n : nat) :
  List.length (filter Nat.even (seq 0 n)) = (n + 1) / 2.
Proof.
  induction n as [|n IH]; [reflexivity|].
  rewrite count_seq_step, IH.
  pose proof (Nat.div_mod_eq (S n + 1) 2). pose proof (Nat.div_mod_eq (n + 1) 2).
  pose proof (Nat.mod_upper_bound (S n + 1) 2 ltac:(discriminate)).
  pose proof (Nat.mod_upper_bound (n + 1) 2 ltac:(discriminate)).
  destruct (Nat.even n) eqn:E.
  - apply Nat.even_spec in E. destruct E as [k ->]. lia.
  - rewrite <- Nat.negb_odd in E. apply negb_false_iff, Nat.odd_spec in E.
    destruct E as [k ->]. lia.
Qed.

Lemma count_odd (n : nat) :
  List.length (filter (fun i => negb (Nat.even i)) (seq 0 n)) = n / 2.
Proof.
  induction n as [|n IH]; [reflexivity|].
  rewrite count_seq_step, IH.
  pose proof (Nat.div_mod_eq (S n) 2). pose proof (Nat.div_mod_eq n 2).
  pose proof (Nat.mod_upper_bound (S n) 2 ltac:(discriminate)).
  pose proof (Nat.mod_upper_bound n 2 ltac:(discriminate)).
  destruct (Nat.even n) eqn:E; cbn [negb].
  - apply Nat.even_spec in E. destruct E as [k ->]. lia.
  - rewrite <- Nat.negb_odd in E. apply negb_false_iff, Nat.odd_spec in E.
    destruct E as [k ->]. lia.
Qed.

Lemma count_linked (n : nat) :
  List.length (filter (fun i => (i mod 6 =? 0) || (i mod 6 =? 2))%nat (seq 0 n))
  = 2 * (n / 6) + match n mod 6 with 0 => 0 | 1 | 2 => 1 | _ => 2 end.
Proof.
  induction n as [|n IH]; [reflexivity|].
  rewrite count_seq_step, IH.
  pose proof (Nat.div_mod_eq (S n) 6) as H1. pose proof (Nat.div_mod_eq n 6) as H2.
  pose proof (Nat.mod_upper_bound (S n) 6 ltac:(discriminate)) as H3.
  pose proof (Nat.mod_upper_bound n 6 ltac:(discriminate)) as H4.
  clear IH.
  remember (S n / 6) as q' eqn:Eq'. remember (S n mod 6) as r' eqn:Er'.
  remember (n / 6) as q eqn:Eq. remember (n mod 6) as r eqn:Er.
  clear Eq' Er' Eq Er.
  do 6 (try destruct r as [|r]); do 6 (try destruct r' as [|r']); simpl; lia.
Qed.

End DemoFacts.

(** X11: the demo emails are numbered from 1 with distinct
    identifiers, there are as many as asked for and none when the
    count is not positive, and they repeat the six templates in order:
    emails whose places agree modulo 6 have the same sender, subject,
    body and headers. *)
Theorem generateDemoEmails_structure (dateAgo : Z -> string) (count : Z) :
  let emails := generateDemoEmails dateAgo count in
  List.length emails = Z.to_nat count
  /\ ((count <= 0)%Z -> emails = [])
  /\ map EmailData.id emails
     = map (fun i => Js.numberToString (i + 1)) (seq 0 (Z.to_nat count))
  /\ NoDup (map EmailData.id emails)
  /\ (forall i j ei ej,
        nth_error emails i = Some ei -> nth_error emails j = Some ej ->
        i mod 6 = j mod 6 ->
        EmailData.from ei = EmailData.from ej
        /\ EmailData.subject ei = EmailData.subject ej
        /\ EmailData.body ei = EmailData.body ej
        /\ EmailData.headers ei = EmailData.headers ej)
  /\ Forall (fun e => exists t,
                 In t (demoEmails dateAgo)
                 /\ EmailData.from e = EmailData.from t
                 /\ EmailData.subject e = EmailData.subject t
                 /\ EmailData.body e = EmailData.body t)
            emails.
Proof.
  cbv zeta. unfold generateDemoEmails.
  split; [now rewrite length_map, length_seq|].
  split; [intros H; now replace (Z.to_nat count) with 0 by lia|].
  split; [now rewrite map_map|].
  split; [|split].
  - rewrite map_map. apply NoDup_map_NoDup_ForallPairs; [|apply seq_NoDup].
    intros i j _ _ H. cbn [demoEmail EmailData.id] in H.
    apply numberToString_inj in H. lia.
  - intros i j ei ej Hi Hj Hmod. rewrite nth_error_map, nth_error_seq in Hi, Hj.
    destruct (i <? Z.to_nat count)%nat; [|discriminate].
    destruct (j <? Z.to_nat count)%nat; [|discriminate].
    injection Hi as <-. injection Hj as <-.
    unfold demoEmail.
    cbn [EmailData.from EmailData.subject EmailData.body EmailData.headers].
    change (List.length (demoEmails dateAgo)) with 6.
    rewrite Hmod. repeat split.
  - apply Forall_forall. intros e He. apply in_map_iff in He.
    destruct He as (i & <- & _).
    exists (nth (i mod 6) (demoEmails dateAgo) (EmailData.mk "" "" "" "" "" [])).
    split; [|repeat split].
    apply nth_In. apply (Nat.mod_upper_bound i 6). discriminate.
Qed.

Lemma POST_demo_counts (dateAgo : Z -> string) (config : EmailConfig.t) :
  Response.stats (POST dateAgo config)
  = Stats.mk (Z.to_nat (maxEmails config)) ((Z.to_nat (maxEmails config) + 1) / 2)
      (Z.to_nat (maxEmails config) / 2)
      (Stats.unsubscribed (Response.stats (POST dateAgo config)))
  /\ List.length (Response.results (POST dateAgo config))
     = Z.to_nat (maxEmails config).
Proof.
  unfold POST, generateDemoEmails. split.
  - rewrite classifyBatch_stats, length_map, length_seq, !filter_map_length.
    cbn [Stats.unsubscribed]. f_equal.
    + rewrite <- count_even. f_equal. apply filter_ext. intros i.
      destruct (demoEmail_classified dateAgo i) as [-> _].
      now destruct (Nat.even i).
    + rewrite <- count_odd. f_equal. apply filter_ext. intros i.
      destruct (demoEmail_classified dateAgo i) as [-> _].
      now destruct (Nat.even i).
  - now rewrite classifyBatch_results, !length_map, length_seq.
Qed.

(** X12: whatever the request, the handler labels the demo emails
    alternately: of its [n] results the [(n + 1) / 2] at even places
    are [marketing] and the [n / 2] others are [important]; with the
    flag, two results in every six are unsubscribed, those made from
    the first and the third template. *)
Theorem POST_stats_of_demo_emails (dateAgo : Z -> string) (config : EmailConfig.t) :
  let response := POST dateAgo config in
  let n := Z.to_nat (maxEmails config) in
  Response.stats response
  = Stats.mk n ((n + 1) / 2) (n / 2)
      (if EmailConfig.autoUnsubscribe config
       then 2 * (n / 6) + match n mod 6 with 0 => 0 | 1 | 2 => 1 | _ => 2 end
       else 0)
  /\ map EmailResult.classification (Response.results response)
     = map (fun i => if Nat.even i then marketing else important) (seq 0 n).
Proof.
  cbv zeta. destruct (POST_demo_counts dateAgo config) as [Hs _]. split.
  - rewrite Hs. f_equal. unfold POST, generateDemoEmails.
    rewrite classifyBatch_stats. cbn [Stats.unsubscribed].
    destruct (EmailConfig.autoUnsubscribe config); [|reflexivity].
    rewrite filter_map_length, <- count_linked. f_equal. apply filter_ext. intros i.
    rewrite classifyEmail_unsubscribable.
    destruct (demoEmail_classified dateAgo i) as [-> ->].
    rewrite <- (even_mod_6 i).
    pose proof (Nat.mod_upper_bound i 6 ltac:(discriminate)) as Hlt.
    destruct (i mod 6) as [|[|[|[|[|[|k]]]]]]; try lia; reflexivity.
  - unfold POST, generateDemoEmails.
    rewrite classifyBatch_results, !map_map. apply map_ext. intros i. cbv zeta.
    destruct (demoEmail_classified dateAgo i) as [<- _].
    destruct (_ && _); reflexivity.
Qed.

(** X13: a request whose [maxEmails] is a number written in decimal gets
    that many results, up to 100; written as 0 it gets 50. *)
Theorem POST_decimal_maxEmails
  (dateAgo : Z -> string) (config : EmailConfig.t) (k : nat) :
  EmailConfig.maxEmails config = Some (Js.numberToString k) ->
  List.length (Response.results (POST dateAgo config))
  = if (k =? 0)%nat then 50 else Nat.min k 100.
Proof.
  intros H. unfold POST.
  rewrite classifyBatch_results, length_map, generateDemoEmails_length.
  unfold maxEmails. rewrite H. cbn [Js.toStringValue].
  rewrite parseInt_numberToString.
  destruct k as [|k]; [reflexivity|].
  cbn [Nat.eqb]. unfold Js.orElse.
  destruct (Z.of_nat (S k)) eqn:E; lia.
Qed.

Lemma POST_decimal_maxEmails_witness :
  List.length
    (Response.results
       (POST (fun _ => "")
          (EmailConfig.mk "gmail" "me@example.com" "secret" "imap.gmail.com" "993"
             (Some (Js.numberToString 500)) true)))
  = if (500 =? 0)%nat then 50 else Nat.min 500 100.
Proof.
  apply (POST_decimal_maxEmails (fun _ => "") _ 500). reflexivity.
Defined.

(** X14: a request whose [maxEmails] is a minus sign followed by a
    positive number gets no result, and statistics that are all 0. *)
Theorem POST_negative_maxEmails
  (dateAgo : Z -> string) (config : EmailConfig.t) (k : nat) :
  EmailConfig.maxEmails config = Some ("-" ++ Js.numberToString k) ->
  0 < k ->
  POST dateAgo config = Response.mk [] (Stats.mk 0 0 0 0).
Proof.
  intros H Hk. unfold POST, generateDemoEmails, maxEmails.
  rewrite H. cbn [Js.toStringValue]. rewrite parseInt_minus_numberToString.
  replace (Z.to_nat _) with 0.
  - now destruct (EmailConfig.autoUnsubscribe config).
  - unfold Js.orElse. destruct (- Z.of_nat k)%Z eqn:E; lia.
Qed.

Lemma POST_negative_maxEmails_witness :
  POST (fun _ => "")
    (EmailConfig.mk "gmail" "me@example.com" "secret" "imap.gmail.com" "993"
       (Some ("-" ++ Js.numberToString 7)) true)
  = Response.mk [] (Stats.mk 0 0 0 0).
Proof.
  apply (POST_negative_maxEmails (fun _ => "") _ 7); [reflexivity | lia].
Defined.

(** ** The page *)

(** X15: when [handleSubmit] is done the page is no longer processing
    and its form is as it was.  After a response that is not [ok] or a
    rejection the result list is empty but the statistics are those of
    the analysis before, so their panel stays as it was while the list
    is gone; the status is an error. *)
Theorem handleSubmit_settles (o : Home.Outcome) (s : Home.t) :
  let s' := Home.handleSubmit o s in
  Home.processing (Home.submitting s) = true
  /\ Home.processing s' = false
  /\ Home.config s' = Home.config s
  /\ match o with
     | Home.Ok data =>
         Home.results s' = Response.results data
         /\ Home.stats s' = Response.stats data
         /\ option_map Status.type (Home.status s') = Some Status.success
     | _ =>
         Home.results s' = []
         /\ Home.stats s' = Home.stats s
         /\ option_map Status.type (Home.status s') = Some Status.error
         /\ Home.showsResults s' = false
         /\ Home.showsStats s' = Home.showsStats s
     end.
Proof. cbv zeta. destruct o; repeat split. Qed.

(** X16: a submit answered by the handler, for the form as it stands:
    the page lists as many results as the bound computed from the
    form's [maxEmails], shows the statistics panel exactly when it
    shows the list, and reports that number and the number of
    marketing emails, half of it rounded up. *)
Theorem handleSubmit_answered_by_POST (dateAgo : Z -> string) (s : Home.t) :
  let s' := Home.handleSubmit (Home.Ok (POST dateAgo (Home.config s))) s in
  let n := Z.to_nat (maxEmails (Home.config s)) in
  List.length (Home.results s') = n
  /\ Stats.total (Home.stats s') = n
  /\ Home.showsStats s' = Home.showsResults s'
  /\ Home.status s'
     = Some (Status.mk Status.success
               ("Analyzed " ++ Js.numberToString n ++ " emails. Found "
                  ++ Js.numberToString ((n + 1) / 2) ++ " marketing emails."))
  /\ Home.processing s' = false.
Proof.
  cbv zeta.
  destruct (POST_demo_counts dateAgo (Home.config s)) as [Hs Hn].
  unfold Home.handleSubmit, Home.settle, Home.showsStats, Home.showsResults.
  cbn [Home.results Home.stats Home.status Home.processing Home.submitting].
  rewrite Hs, Hn. cbn [Stats.total Stats.marketing]. repeat split.
Qed.

(** X17: choosing a provider sets the host from the provider alone: a
    host typed before is lost, also for "custom", which gets the host
    of the first provider; the rest of the form is kept. *)
Theorem selectProvider_overwrites_host (provider host : string) (s : Home.t) :
  let c := Home.config (Home.selectProvider provider (Home.editImapHost host s)) in
  EmailConfig.imapHost c
  = EmailConfig.imapHost (Home.config (Home.selectProvider provider s))
  /\ In (EmailConfig.imapHost c)
        [ "imap.gmail.com"; "outlook.office365.com"; "imap.mail.yahoo.com" ]
  /\ (EmailConfig.imapHost c = "outlook.office365.com" <-> provider = "outlook")
  /\ (EmailConfig.imapHost c = "imap.mail.yahoo.com" <-> provider = "yahoo")
  /\ EmailConfig.provider c = provider
  /\ EmailConfig.email c = EmailConfig.email (Home.config s)
  /\ EmailConfig.password c = EmailConfig.password (Home.config s)
  /\ EmailConfig.imapPort c = EmailConfig.imapPort (Home.config s)
  /\ EmailConfig.maxEmails c = EmailConfig.maxEmails (Home.config s)
  /\ EmailConfig.autoUnsubscribe c = EmailConfig.autoUnsubscribe (Home.config s).
Proof.
  cbv zeta. unfold Home.selectProvider, Home.editImapHost, Home.setConfig.
  cbn [Home.config EmailConfig.imapHost EmailConfig.provider EmailConfig.email
       EmailConfig.password EmailConfig.imapPort EmailConfig.maxEmails
       EmailConfig.autoUnsubscribe].
  destruct (String.eqb_spec provider "outlook") as [-> | Ho];
    [|destruct (String.eqb_spec provider "yahoo") as [-> | Hy]];
    repeat split; simpl; auto; try discriminate; try contradiction;
    intros H; congruence.
Qed.

(** ** Adding text *)

Section Monotone.

Lemma Occurs_within (P : string -> Prop) (before s after : string) :
  Occurs P s -> Occurs P (before ++ s ++ after).
Proof.
  intros (pre & t & post & -> & Ht).
  exists (before ++ pre), t, (post ++ after). split; [|exact Ht].
  now rewrite !str_app_assoc.
Qed.

Lemma filter_length_mono {A : Type} (p q : A -> bool) (l : list A) :
  (forall x, In x l -> p x = true -> q x = true) ->
  List.length (filter p l) <= List.length (filter q l).
Proof.
  induction l as [|x l IH]; intros H; simpl; [lia|].
  assert (IH' : List.length (filter p l) <= List.length (filter q l))
    by (apply IH; intros y Hy; apply H; now right).
  destruct (p x) eqn:Ep.
  - rewrite (H x (or_introl eq_refl) Ep). simpl. lia.
  - destruct (q x); simpl; lia.
Qed.

End Monotone.

(** X18: text added before or after the subject or the body never
    lowers a score: each keyword found is still found, and so is a
    token of the link grammar. *)
Theorem adding_text_never_lowers_scores
  (e e' : EmailData.t) (s1 s2 b1 b2 : string) :
  EmailData.from e' = EmailData.from e ->
  EmailData.subject e' = s1 ++ EmailData.subject e ++ s2 ->
  EmailData.body e' = b1 ++ EmailData.body e ++ b2 ->
  marketingScore (scoreEmail e) <= marketingScore (scoreEmail e')
  /\ importantScore (scoreEmail e) <= importantScore (scoreEmail e')
  /\ (EmailResult.unsubscribeLink (classifyEmail e) <> None ->
      EmailResult.unsubscribeLink (classifyEmail e') <> None).
Proof.
  intros Hf Hs Hb.
  assert (Hhit : forall kw,
             In kw (marketingKeywords ++ importantKeywords)%list ->
             keywordHit e kw = true -> keywordHit e' kw = true).
  { intros kw Hin H. pose proof (keywords_lowercase kw Hin) as Hkw.
    apply keywordHit_spec in H; [|exact Hkw]. apply keywordHit_spec; [exact Hkw|].
    rewrite Hs, Hb. destruct H as [H | H]; [left | right];
      now apply Occurs_within. }
  assert (Hlink : unsubscribeLink (scoreEmail e) <> None ->
                  unsubscribeLink (scoreEmail e') <> None).
  { intros H. apply scoreEmail_link_found. rewrite Hb.
    now apply Occurs_within, scoreEmail_link_found. }
  assert (Hms : marketingSender e' = marketingSender e)
    by (unfold marketingSender; now rewrite Hf).
  assert (His : importantSender e' = importantSender e)
    by (unfold importantSender; now rewrite Hf).
  split; [|split; [|exact Hlink]].
  - rewrite !scoreEmail_marketingScore, Hms.
    pose proof (filter_length_mono (keywordHit e) (keywordHit e') marketingKeywords)
      as Hk.
    assert (List.length (filter (keywordHit e) marketingKeywords)
            <= List.length (filter (keywordHit e') marketingKeywords)).
    { apply Hk. intros kw Hin. apply Hhit. apply in_or_app. now left. }
    destruct (unsubscribeLink (scoreEmail e)) eqn:El.
    + destruct (unsubscribeLink (scoreEmail e')); [cbn [isPresent]; lia|].
      exfalso. apply Hlink; [discriminate | reflexivity].
    + cbn [isPresent]. lia.
  - rewrite !scoreEmail_importantScore, His.
    pose proof (filter_length_mono (keywordHit e) (keywordHit e') importantKeywords)
      as Hk.
    assert (List.length (filter (keywordHit e) importantKeywords)
            <= List.length (filter (keywordHit e') importantKeywords)); [|lia].
    apply Hk. intros kw Hin. apply Hhit. apply in_or_app. now right.
Qed.

Lemma adding_text_never_lowers_scores_witness :
  let e :=
    EmailData.mk "1" "shop@example.com" "Sale" "2024-01-01T00:00:00.000Z"
      "Leave at https://example.com/unsubscribe" [] in
  let e' :=
    EmailData.mk "2" "shop@example.com" "Re: Sale ends soon"
      "2024-01-02T00:00:00.000Z"
      "Hello. Leave at https://example.com/unsubscribe?u=1 or pay the invoice." [] in
  marketingScore (scoreEmail e) <= marketingScore (scoreEmail e')
  /\ importantScore (scoreEmail e) <= importantScore (scoreEmail e')
  /\ (EmailResult.unsubscribeLink (classifyEmail e) <> None ->
      EmailResult.unsubscribeLink (classifyEmail e') <> None).
Proof.
  intros e e'.
  apply (adding_text_never_lowers_scores e e' "Re: " " ends soon"
           "Hello. " "?u=1 or pay the invoice."); reflexivity.
Defined.
